(** * Currency exchange dashboard: the generator and the analytics pipeline

    A shallow embedding of [app.py].  The script has two parts: [load_data],
    which builds the synthetic table of daily rates, and the top-level
    pipeline, which filters that table by the sidebar selection and derives
    the metrics, the basket series, the statistics table and the three risk
    lists.

    Numbers.  Exchange rates and every mean are exact rationals ([Q]); the
    rounding error of binary floating point is outside the model.  A date is
    its proleptic Gregorian ordinal ([Z]), so [timedelta(days=n)] is the
    subtraction of [n].  The result of [Series.std()] is either not-a-number
    or the square root of a rational, and is held by its radicand
    ([stdval]); the script only ever compares it with literals, and module
    [Root] shows that the comparisons on radicands are those of the real
    square root.

    Left out: the page layout, the three charts and the grouped minimum and
    maximum that feeds the bar chart, and the formatting of numbers into the
    strings shown (the records below hold the values themselves). *)

From Stdlib Require Import ZArith QArith Qround List String Bool Lia.
From Stdlib Require Import Sorting.Sorted.
From Stdlib Require Reals Qreals Lra.
From Stdlib Require Import Structures.OrdersEx.
From Stdlib Require Import Lqa.
Import ListNotations.

Local Open Scope Z_scope.

(* ================================================================== *)
(** * Calendar *)

Module Calendar.

Definition is_leap (year : Z) : bool :=
  ((year mod 4 =? 0) && negb (year mod 100 =? 0)) || (year mod 400 =? 0).

Definition days_before_year (year : Z) : Z :=
  let y := year - 1 in
  y * 365 + y / 4 - y / 100 + y / 400.

Definition days_in_month (year month : Z) : Z :=
  if month =? 2 then (if is_leap year then 29 else 28)
  else if (month =? 4) || (month =? 6) || (month =? 9) || (month =? 11)
       then 30 else 31.

Fixpoint days_before_month_aux (year : Z) (m : nat) : Z :=
  match m with
  | O => 0
  | S m' => days_before_month_aux year m' + days_in_month year (Z.of_nat m)
  end.

Definition days_before_month (year month : Z) : Z :=
  days_before_month_aux year (Z.to_nat (month - 1)).

(** The day number of a calendar date, 0001-01-01 being day 1. *)
Definition toordinal (year month day : Z) : Z :=
  days_before_year year + days_before_month year month + day.

(** [pd.date_range(start, end, freq='D')]: every day from [start] to
    [end], both ends included; empty when [end] is before [start]. *)
Definition date_range (start stop : Z) : list Z :=
  map (fun k => start + Z.of_nat k) (seq 0 (Z.to_nat (stop - start + 1))).

End Calendar.

(* ================================================================== *)
(** * The table *)

(** One record of the list [data], that is one row of the DataFrame. *)
Record Row : Type := mkRow {
  Date : Z;
  Currency_Pair : string;
  Exchange_Rate : Q;
  Volume : Z
}.

Definition DataFrame : Type := list Row.

(** The values of the dictionary [pairs]. *)
Record PairConfig : Type := mkConfig {
  base : Q;
  volatility : Q
}.

(** The dictionary [pairs], in insertion order (the order [items()]
    walks it in). *)
Definition pairs : list (string * PairConfig) :=
  [ ("USD/EUR"%string, mkConfig 0.85 0.01);
    ("USD/GBP"%string, mkConfig 0.75 0.012);
    ("USD/JPY"%string, mkConfig 110.0 1.5);
    ("USD/INR"%string, mkConfig 83.0 0.8);
    ("EUR/GBP"%string, mkConfig 0.88 0.008);
    ("GBP/INR"%string, mkConfig 110.0 1.2) ]%Q.

(** The key of a row in the data model. *)
Definition key (r : Row) : Z * string := (Date r, Currency_Pair r).

(** A table whose rows come in the order of their dates, as the data model
    has the dataset. *)
Definition by_date (r r' : Row) : Prop := Date r <= Date r'.

Definition date_ordered (df : DataFrame) : Prop := StronglySorted by_date df.

(* ================================================================== *)
(** * NumPy: the sine and the global random generator *)

(** [np.sin] and the two samplers of [np.random] that [load_data] calls.
    The generator is global mutable state in the source; here every draw
    takes the state and returns the next one.  [np.random.randint(low, high)]
    excludes [high]. *)
Class NumPy (G : Type) : Type := {
  np_sin : Q -> Q;
  np_normal : Q -> Q -> G -> Q * G;
  np_randint : Z -> Z -> G -> Z * G;
  np_randint_range :
    forall low high g, low < high ->
      low <= fst (np_randint low high g) < high
}.

(** Computations that consume the random stream. *)
Definition Rand (G A : Type) : Type := G -> A * G.

Definition ret {G A : Type} (a : A) : Rand G A := fun g => (a, g).

Definition bind {G A B : Type} (m : Rand G A) (k : A -> Rand G B) : Rand G B :=
  fun g => let (a, g') := m g in k a g'.

Declare Scope rand_scope.
Delimit Scope rand_scope with rand.
Notation "x <- m ;; k" := (bind m (fun x => k))
  (at level 61, m at next level, right associativity) : rand_scope.

(** Python's [round(x, 4)] on the exact value: to the nearest multiple of
    [10^-4], a tie going to the even one.  (A binary float that prints as a
    tie is seldom one exactly, so at such values the code may store the
    other neighbour; the exact value is never that tie in the floats.) *)
Definition round_half_even (q : Q) : Z :=
  let f := Qfloor q in
  let d := (q - inject_Z f)%Q in
  match (d ?= 1 # 2)%Q with
  | Lt => f
  | Gt => f + 1
  | Eq => if Z.even f then f else f + 1
  end.

Definition py_round (q : Q) (ndigits : nat) : Q :=
  let scale := Z.pow 10 (Z.of_nat ndigits) in
  (inject_Z (round_half_even (q * inject_Z scale)) / inject_Z scale)%Q.

Section Generator.

Context {G : Type} `{NumPy G}.

Local Open Scope rand_scope.

(** The body of the inner loop, lines 35 to 44. *)
Definition make_row (i : Z) (date : Z) (pair_name : string)
           (config : PairConfig) : Rand G Row :=
  let trend := (np_sin (inject_Z i * 0.02) * 0.05)%Q in
  random_change <- np_normal 0 (volatility config) ;;
  let rate := (base config * (1 + trend + random_change))%Q in
  volume <- np_randint 1000000 8000000 ;;
  ret {| Date := date;
         Currency_Pair := pair_name;
         Exchange_Rate := py_round rate 4;
         Volume := volume |}.

(** [for pair_name, config in pairs.items()] *)
Fixpoint for_pairs (i : Z) (date : Z) (items : list (string * PairConfig))
  : Rand G (list Row) :=
  match items with
  | [] => ret []
  | (pair_name, config) :: rest =>
      r <- make_row i date pair_name config ;;
      rs <- for_pairs i date rest ;;
      ret (r :: rs)
  end.

(** [for i, date in enumerate(dates)], [i] being the index of the first
    remaining date. *)
Fixpoint for_dates (i : Z) (dates : list Z)
         (items : list (string * PairConfig)) : Rand G (list Row) :=
  match dates with
  | [] => ret []
  | date :: rest =>
      today_rows <- for_pairs i date items ;;
      later_rows <- for_dates (i + 1) rest items ;;
      ret (today_rows ++ later_rows)
  end.

(** The generator with its two tables as arguments. *)
Definition generate (dates : list Z) (items : list (string * PairConfig))
  : Rand G DataFrame :=
  for_dates 0 dates items.

(** [load_data()], line 17. *)
Definition load_data : Rand G DataFrame :=
  let dates := Calendar.date_range (Calendar.toordinal 2023 1 1)
                                   (Calendar.toordinal 2024 1 1) in
  generate dates pairs.

(** The rate the inner loop stores for the day index [i], a pair
    configuration and a normal draw. *)
Definition rate_of (i : Z) (config : PairConfig) (random_change : Q) : Q :=
  py_round (base config
            * (1 + np_sin (inject_Z i * 0.02) * 0.05 + random_change)) 4.

(** What every row written on day [date], of index [i], looks like. *)
Definition row_of (i date : Z) (items : list (string * PairConfig))
           (r : Row) : Prop :=
  Date r = date
  /\ 1000000 <= Volume r < 8000000
  /\ exists config random_change,
       In (Currency_Pair r, config) items
       /\ Exchange_Rate r = rate_of i config random_change.

End Generator.

(* ================================================================== *)
(** * Series: the column operations of pandas *)

(** What [Series.std()] returns: not-a-number, or the square root of the
    sample variance, kept as its radicand. *)
Inductive stdval : Type :=
  | NaN
  | Sqrt (radicand : Q).

(** The real number that [Sqrt v] stands for. *)
Definition root (v : Q) : Rdefinitions.R := R_sqrt.sqrt (Rdefinitions.Q2R v).

Definition Qltb (x y : Q) : bool := negb (Qle_bool y x).

(** [s > t], [s < t] and [s >= t] for a literal [t].  Every comparison
    with not-a-number is false.  For [t >= 0] the root is compared through
    its square, a root being never negative. *)
Definition std_gt (s : stdval) (t : Q) : bool :=
  match s with
  | NaN => false
  | Sqrt v => if Qle_bool 0 t then Qltb (t * t) v else true
  end.

Definition std_lt (s : stdval) (t : Q) : bool :=
  match s with
  | NaN => false
  | Sqrt v => if Qle_bool 0 t then Qltb v (t * t) else false
  end.

Definition std_ge (s : stdval) (t : Q) : bool :=
  match s with
  | NaN => false
  | Sqrt v => if Qle_bool 0 t then Qle_bool (t * t) v else true
  end.

Definition series_sum (xs : list Q) : Q := fold_right Qplus 0%Q xs.

Definition Qlen (xs : list Q) : Q := inject_Z (Z.of_nat (List.length xs)).

(** [Series.mean()]: not-a-number ([None]) on an empty series. *)
Definition series_mean (xs : list Q) : option Q :=
  match xs with
  | [] => None
  | _ :: _ => Some (series_sum xs / Qlen xs)%Q
  end.

(** [Series.std()], the sample standard deviation (one degree of freedom
    taken off): not-a-number below two observations. *)
Definition series_std (xs : list Q) : stdval :=
  match xs with
  | [] | [_] => NaN
  | _ :: _ :: _ =>
      let m := (series_sum xs / Qlen xs)%Q in
      let squares := map (fun x => ((x - m) * (x - m))%Q) xs in
      Sqrt (series_sum squares / (Qlen xs - 1))%Q
  end.

Definition Qmaxb (x y : Q) : Q := if Qle_bool x y then y else x.
Definition Qminb (x y : Q) : Q := if Qle_bool x y then x else y.

(** [max()], [min()] and [iloc[-1]] of a series that starts with [x]. *)
Definition series_max (x : Q) (xs : list Q) : Q := fold_left Qmaxb xs x.
Definition series_min (x : Q) (xs : list Q) : Q := fold_left Qminb xs x.
Definition iloc_last (x : Q) (xs : list Q) : Q := last xs x.

(** A timestamp, [None] being not-a-time: the maximum or minimum of an
    empty date column. *)
Definition Timestamp : Type := option Z.

Definition date_max (df : DataFrame) : Timestamp :=
  match map Date df with
  | [] => None
  | d :: ds => Some (fold_left Z.max ds d)
  end.

Definition date_min (df : DataFrame) : Timestamp :=
  match map Date df with
  | [] => None
  | d :: ds => Some (fold_left Z.min ds d)
  end.

(** [ts - timedelta(days=n)] *)
Definition minus_days (ts : Timestamp) (n : Z) : Timestamp :=
  option_map (fun t => t - n) ts.

(** [date >= start_date], false against not-a-time. *)
Definition date_ge (date : Z) (start : Timestamp) : bool :=
  match start with
  | None => false
  | Some s => s <=? date
  end.

(** [Series.isin(values)] on one cell. *)
Definition isin (x : string) (values : list string) : bool :=
  existsb (String.eqb x) values.

(* ================================================================== *)
(** * The pipeline *)

(** The options of the selectbox "Time Period:". *)
Definition period_options : list string :=
  [ "Last 30 Days"; "Last 90 Days"; "Last 6 Months"; "Last Year" ]%string.

(** Lines 71 to 79. *)
Definition start_date (df : DataFrame) (period : string) : Timestamp :=
  let today := date_max df in
  if (period =? "Last 30 Days")%string then minus_days today 30
  else if (period =? "Last 90 Days")%string then minus_days today 90
  else if (period =? "Last 6 Months")%string then minus_days today 180
  else date_min df.

(** Lines 82 to 85. *)
Definition filtered_data (df : DataFrame) (currencies : list string)
           (period : string) : DataFrame :=
  let start := start_date df period in
  filter (fun r => isin (Currency_Pair r) currencies && date_ge (Date r) start)
         df.

(** [filtered_data[filtered_data['Currency_Pair'] == curr]['Exchange_Rate']] *)
Definition pair_rates (view : DataFrame) (curr : string) : list Q :=
  map Exchange_Rate (filter (fun r => (Currency_Pair r =? curr)%string) view).

(** Line 120. *)
Definition risk (volatility : stdval) : string :=
  if std_gt volatility 5 then "High"
  else if std_gt volatility 1 then "Medium"
  else "Low".

(** Line 227. *)
Definition risk_level (vol : stdval) : string :=
  if std_gt vol 5 then "🔴 High"
  else if std_gt vol 1 then "🟡 Medium"
  else "🟢 Low".

(** The four metrics of the first row of the page (their values, before
    they are formatted for display). *)
Record Metrics : Type := mkMetrics {
  metric_pairs : nat;
  metric_avg_rate : option Q;
  metric_total_volume : Q;
  metric_risk : string
}.

Definition key_metrics (view : DataFrame) (currencies : list string) : Metrics :=
  let rates := map Exchange_Rate view in
  {| metric_pairs := List.length currencies;
     metric_avg_rate := series_mean rates;
     metric_total_volume :=
       (inject_Z (fold_right Z.add 0%Z (map Volume view)) / 1000000)%Q;
     metric_risk := risk (series_std rates) |}.

(** The keys of [groupby('Date')]: the distinct dates, ascending. *)
Fixpoint insert_date (d : Z) (ds : list Z) : list Z :=
  match ds with
  | [] => [d]
  | x :: rest =>
      if d <? x then d :: ds
      else if d =? x then ds
      else x :: insert_date d rest
  end.

Definition group_dates (dates : list Z) : list Z :=
  fold_right insert_date [] dates.

(** The rates of the rows of one date. *)
Definition date_rates (view : DataFrame) (d : Z) : list Q :=
  map Exchange_Rate (filter (fun r => Date r =? d) view).

(** Line 203: one row per date, with the mean rate of that date. *)
Definition basket_data (view : DataFrame) : list (Z * option Q) :=
  map (fun d => (d, series_mean (date_rates view d)))
      (group_dates (map Date view)).

(** One dictionary of the list [stats_data] (the values, before they are
    formatted for display). *)
Record StatRow : Type := mkStat {
  Stat_Currency_Pair : string;
  Current_Rate : Q;
  Peak_Rate : Q;
  Lowest_Rate : Q;
  Average_Rate : Q;
  Stat_Volatility : stdval;
  Risk_Level : string
}.

(** Lines 222 to 237. *)
Fixpoint stats_data (view : DataFrame) (currencies : list string)
  : list StatRow :=
  match currencies with
  | [] => []
  | currency :: rest =>
      let curr_data := pair_rates view currency in
      match curr_data with
      | [] => stats_data view rest
      | x :: xs =>
          let vol := series_std curr_data in
          {| Stat_Currency_Pair := currency;
             Current_Rate := iloc_last x xs;
             Peak_Rate := series_max x xs;
             Lowest_Rate := series_min x xs;
             Average_Rate := (series_sum curr_data / Qlen curr_data)%Q;
             Stat_Volatility := vol;
             Risk_Level := risk_level vol |}
          :: stats_data view rest
      end
  end.

(** Lines 251, 262 and 273. *)
Definition low_risk (view : DataFrame) (currencies : list string) : list string :=
  filter (fun curr => std_lt (series_std (pair_rates view curr)) 1.0) currencies.

Definition med_risk (view : DataFrame) (currencies : list string) : list string :=
  filter (fun curr => std_ge (series_std (pair_rates view curr)) 1.0
                      && std_lt (series_std (pair_rates view curr)) 5.0)
         currencies.

Definition high_risk (view : DataFrame) (currencies : list string) : list string :=
  filter (fun curr => std_ge (series_std (pair_rates view curr)) 5.0) currencies.

(** Everything the page shows once the view is known to have rows. *)
Record Report : Type := mkReport {
  report_metrics : Metrics;
  report_basket : list (Z * option Q);
  report_stats : list StatRow;
  report_low : list string;
  report_med : list string;
  report_high : list string
}.

(** One run of the script: either [st.stop()] was reached after the
    warning, or the page was rendered to its end. *)
Inductive Run : Type :=
  | Stopped (warning : string)
  | Rendered (report : Report).

Definition no_data_warning : string :=
  "⚠️ No data available for selected filters. Please adjust your selection.".

(** The script from line 70 on, for the table [df] and the two sidebar
    inputs. *)
Definition dashboard (df : DataFrame) (currencies : list string)
           (period : string) : Run :=
  let view := filtered_data df currencies period in
  match view with
  | [] => Stopped no_data_warning
  | _ :: _ =>
      Rendered {| report_metrics := key_metrics view currencies;
                  report_basket := basket_data view;
                  report_stats := stats_data view currencies;
                  report_low := low_risk view currencies;
                  report_med := med_risk view currencies;
                  report_high := high_risk view currencies |}
  end.

(* ================================================================== *)
(** * The sidebar options and the bar chart *)

(** [Series.unique()]: the distinct values, in the order in which they
    first appear. *)
Fixpoint unique (values : list string) : list string :=
  match values with
  | [] => []
  | x :: rest => x :: filter (fun y => negb (y =? x)%string) (unique rest)
  end.

(** Line 58: the options of the multiselect "Select Currency Pairs:". *)
Definition currency_options (df : DataFrame) : list string :=
  unique (map Currency_Pair df).

(** Line 59: the pairs selected when the page opens. *)
Definition default_currencies : list string :=
  [ "USD/EUR"; "USD/GBP"; "USD/INR" ]%string.

(** The keys of [groupby('Currency_Pair')]: the distinct pair names, in the
    lexical order of their characters. *)
Fixpoint insert_pair (c : string) (cs : list string) : list string :=
  match cs with
  | [] => [c]
  | x :: rest =>
      match String_as_OT.compare c x with
      | Lt => c :: cs
      | Eq => cs
      | Gt => x :: insert_pair c rest
      end
  end.

Definition group_pairs (names : list string) : list string :=
  fold_right insert_pair [] names.

(** One row of the frame [stats] of line 167. *)
Record MinMaxRow : Type := mkMinMax {
  MinMax_Currency_Pair : string;
  MinMax_min : Q;
  MinMax_max : Q
}.

(** Line 167: [groupby('Currency_Pair')['Exchange_Rate'].agg(['min', 'max'])],
    the index reset: one row per pair of the view. *)
Definition min_max_stats (view : DataFrame) : list MinMaxRow :=
  flat_map (fun c =>
              match pair_rates view c with
              | [] => []
              | x :: xs => [ {| MinMax_Currency_Pair := c;
                                MinMax_min := series_min x xs;
                                MinMax_max := series_max x xs |} ]
              end)
           (group_pairs (map Currency_Pair view)).

(* ================================================================== *)
(** * A concrete random source, for the examples *)

Module Lcg.

(** The state of a linear congruential generator. *)
Definition next (g : Z) : Z := (g * 1103515245 + 12345) mod 2147483648.

(** The sine by its Taylor polynomial of degree 7, kept within [-1, 1];
    the examples evaluate it at the first days only, where the argument
    is below 0.1. *)
Definition sin7 (x : Q) : Q :=
  let x2 := (x * x)%Q in
  let p := (x * (1 - x2 / 6 * (1 - x2 / 20 * (1 - x2 / 42))))%Q in
  if Qle_bool p (-1) then (-1)%Q else if Qle_bool 1 p then 1%Q else p.

(** A draw of the normal law [loc, scale], one of the seven values
    [loc + scale * k / 2] for [k] from -3 to 3. *)
Definition normal (loc scale : Q) (g : Z) : Q * Z :=
  ((loc + scale * (inject_Z (g mod 7 - 3) / 2))%Q, next g).

Definition randint (low high : Z) (g : Z) : Z * Z :=
  (low + g mod (high - low), next g).

#[export] Instance numpy : NumPy Z.
Proof.
  refine {| np_sin := sin7; np_normal := normal; np_randint := randint |}.
  intros low high g Hlt. unfold randint. cbn [fst].
  pose proof (Z.mod_pos_bound g (high - low)). lia.
Defined.

End Lcg.

(* ================================================================== *)
(** * Sample tables *)

Module Sample.

Import Lcg.

Definition new_year_2023 : Z := Calendar.toordinal 2023 1 1.

(** Three days of generated data, from the seed 42. *)
Definition three_days : DataFrame :=
  fst (generate (Calendar.date_range new_year_2023 (new_year_2023 + 2))
                pairs 42).

(** A table where one pair stops early: USD/JPY has a single row, forty
    days before the last USD/EUR row. *)
Definition uneven : DataFrame :=
  [ mkRow new_year_2023 "USD/JPY" 110.25 2000000;
    mkRow new_year_2023 "USD/EUR" 0.85 3000000;
    mkRow (new_year_2023 + 39) "USD/EUR" 0.86 4000000;
    mkRow (new_year_2023 + 40) "USD/EUR" 0.84 5000000 ]%Q.

(** Its last thirty days, USD/EUR alone selected. *)
Definition eur_view : DataFrame :=
  filtered_data uneven ["USD/EUR"%string] "Last 30 Days".

(** The whole of it, both pairs selected. *)
Definition both : list string := [ "USD/EUR"; "USD/JPY" ]%string.

Definition year_view : DataFrame := filtered_data uneven both "Last Year".

(** Three rates whose sample standard deviation is exactly 5. *)
Definition spread_five : DataFrame :=
  [ mkRow new_year_2023 "USD/JPY" 105 2000000;
    mkRow (new_year_2023 + 1) "USD/JPY" 110 3000000;
    mkRow (new_year_2023 + 2) "USD/JPY" 115 4000000 ]%Q.

(** Three rates whose sample standard deviation is exactly 1. *)
Definition spread_one : DataFrame :=
  [ mkRow new_year_2023 "USD/INR" 82 2000000;
    mkRow (new_year_2023 + 1) "USD/INR" 83 3000000;
    mkRow (new_year_2023 + 2) "USD/INR" 84 4000000 ]%Q.

End Sample.

(* ================================================================== *)
(** * Facts about lists and rationals used below *)

Section ListFacts.

Context {A B : Type}.

Lemma NoDup_map_pair (a : A) (l : list B) :
  NoDup l -> NoDup (map (pair a) l).
Proof.
  induction 1 as [|b l Hb _ IH]; cbn; constructor; auto.
  intros Hin. apply in_map_iff in Hin as (b' & Heq & Hin').
  inversion Heq; subst; contradiction.
Qed.

Lemma NoDup_list_prod (l : list A) (l' : list B) :
  NoDup l -> NoDup l' -> NoDup (list_prod l l').
Proof.
  intros Hl Hl'. induction Hl as [|a l Ha _ IH]; cbn.
  - constructor.
  - apply NoDup_app; auto using NoDup_map_pair.
    intros [a' b'] Hin1 Hin2.
    apply in_map_iff in Hin1 as (b & Heq & _). inversion Heq; subst.
    apply in_prod_iff in Hin2 as [Hin2 _]. contradiction.
Qed.

Lemma NoDup_map_injective (f : A -> B) (l : list A) (x y : A) :
  NoDup (map f l) -> In x l -> In y l -> f x = f y -> x = y.
Proof.
  induction l as [|a l IH]; cbn; [tauto|].
  intros Hnd Hx Hy Hxy. inversion Hnd as [|? ? Hnotin Hnd']; subst.
  destruct Hx as [->|Hx], Hy as [->|Hy]; auto.
  - exfalso. apply Hnotin. rewrite Hxy. now apply in_map.
  - exfalso. apply Hnotin. rewrite <- Hxy. now apply in_map.
Qed.

Lemma filter_all (f : A -> bool) (l : list A) :
  (forall x, In x l -> f x = true) -> filter f l = l.
Proof.
  intros Hall. apply forallb_filter_id, forallb_forall, Hall.
Qed.

Lemma filter_none (f : A -> bool) (l : list A) :
  filter f l = [] <-> (forall x, In x l -> f x = false).
Proof.
  induction l as [|a l IH]; cbn.
  - split; [intros _ x []|reflexivity].
  - destruct (f a) eqn:Ha.
    + split; [discriminate|]. intros Hall. specialize (Hall a (or_introl eq_refl)).
      congruence.
    + rewrite IH. split.
      * intros Hall x [<-|Hx]; auto.
      * intros Hall x Hx. apply Hall. now right.
Qed.

End ListFacts.

Lemma StronglySorted_app {A : Type} (R : A -> A -> Prop) (l l' : list A) :
  StronglySorted R l -> StronglySorted R l' ->
  (forall x y, In x l -> In y l' -> R x y) ->
  StronglySorted R (l ++ l').
Proof.
  intros Hl Hl' Hcross. induction Hl as [|a l Hl IH Hall]; cbn; [assumption|].
  constructor.
  - apply IH. intros x y Hx. apply Hcross. now right.
  - apply Forall_app. split; [assumption|].
    apply Forall_forall. intros y Hy. apply Hcross; [now left|assumption].
Qed.

Lemma StronglySorted_map_Date (df : DataFrame) :
  StronglySorted Z.le (map Date df) -> StronglySorted by_date df.
Proof.
  induction df as [|r df IH]; cbn; intros Hs; [constructor|].
  inversion Hs as [|? ? Hs' Hall]; subst. constructor; [auto|].
  rewrite Forall_map in Hall. exact Hall.
Qed.

Lemma StronglySorted_filter {A : Type} (R : A -> A -> Prop) (f : A -> bool)
      (l : list A) :
  StronglySorted R l -> StronglySorted R (filter f l).
Proof.
  induction 1 as [|a l Hl IH Hall]; cbn; [constructor|].
  destruct (f a); [|assumption]. constructor; [assumption|].
  rewrite Forall_forall in *. intros x Hx. apply filter_In in Hx as [Hx _]. auto.
Qed.

Lemma date_range_length (start stop : Z) :
  List.length (Calendar.date_range start stop) = Z.to_nat (stop - start + 1).
Proof.
  unfold Calendar.date_range. now rewrite length_map, length_seq.
Qed.

Lemma date_range_sorted_from (start : Z) (n k : nat) :
  StronglySorted Z.le (map (fun k => start + Z.of_nat k) (seq k n)).
Proof.
  revert k. induction n as [|n IH]; intros k; cbn; constructor; auto.
  apply Forall_forall. intros d Hd.
  apply in_map_iff in Hd as (j & <- & Hj). apply in_seq in Hj. lia.
Qed.

Lemma date_range_sorted (start stop : Z) :
  StronglySorted Z.le (Calendar.date_range start stop).
Proof. apply date_range_sorted_from. Qed.

Lemma date_range_NoDup (start stop : Z) :
  NoDup (Calendar.date_range start stop).
Proof.
  unfold Calendar.date_range.
  apply NoDup_map_NoDup_ForallPairs; [|apply seq_NoDup].
  intros j k _ _ Heq. lia.
Qed.

Lemma pairs_names_NoDup : NoDup (map fst pairs).
Proof.
  cbn. repeat constructor; cbn; intros Hin;
    repeat (destruct Hin as [Hin|Hin]; [discriminate|]); exact Hin.
Qed.

Lemma Qltb_lt (x y : Q) : Qltb x y = true <-> (x < y)%Q.
Proof.
  unfold Qltb. rewrite negb_true_iff. split.
  - intros Hb. apply Qnot_le_lt. intros Hle.
    apply Qle_bool_iff in Hle. congruence.
  - intros Hlt. destruct (Qle_bool y x) eqn:Hb; [|reflexivity].
    apply Qle_bool_iff in Hb. exfalso. exact (Qlt_not_le _ _ Hlt Hb).
Qed.

Lemma Qle_bool_false (x y : Q) : Qle_bool x y = false <-> (y < x)%Q.
Proof.
  rewrite <- Qltb_lt. unfold Qltb. now rewrite negb_true_iff.
Qed.

(** Rounding never makes a positive number out of one that is not. *)
Lemma round_half_even_pos (q : Q) : 0 < round_half_even q -> (0 < q)%Q.
Proof.
  unfold round_half_even. intros Hpos.
  pose proof (Qfloor_le q) as Hfl.
  destruct (Z_lt_le_dec 0 (Qfloor q)) as [Hf|Hf].
  - apply Qlt_le_trans with (inject_Z (Qfloor q)); [|assumption].
    rewrite <- (Zlt_Qlt 0). assumption.
  - destruct (q - inject_Z (Qfloor q) ?= 1 # 2)%Q eqn:Hcmp.
    + destruct (Z.even (Qfloor q)) eqn:Hev; [lia|].
      assert (Qfloor q = 0) as H0.
      { destruct (Z.eq_dec (Qfloor q) 0) as [|Hne]; [assumption|lia]. }
      rewrite H0 in Hev. discriminate.
    + lia.
    + assert (Qfloor q = 0) as H0 by lia.
      rewrite H0 in Hcmp. apply Qgt_alt in Hcmp.
      apply Qlt_trans with (1 # 2)%Q; [reflexivity|].
      setoid_replace q with (q - inject_Z 0)%Q by (unfold inject_Z; ring).
      assumption.
Qed.

Lemma py_round_pos (q : Q) (ndigits : nat) :
  (0 < py_round q ndigits)%Q -> (0 < q)%Q.
Proof.
  unfold py_round. set (scale := 10 ^ Z.of_nat ndigits).
  assert (0 < scale) as Hs by (apply Z.pow_pos_nonneg; lia).
  assert (0 < inject_Z scale)%Q as HsQ by (rewrite <- (Zlt_Qlt 0); assumption).
  intros Hpos.
  assert (0 < round_half_even (q * inject_Z scale)) as Hr.
  { rewrite (Zlt_Qlt 0).
    apply Qmult_lt_r with (z := (/ inject_Z scale)%Q).
    - apply Qinv_lt_0_compat; assumption.
    - rewrite Qmult_0_l. exact Hpos. }
  apply round_half_even_pos in Hr.
  apply Qmult_lt_r with (z := inject_Z scale); [assumption|].
  rewrite Qmult_0_l. assumption.
Qed.

(* ================================================================== *)
(** * The generator *)

Section GeneratorFacts.

Context {G : Type} `{NumPy G}.

Ltac run_rand :=
  unfold bind, ret;
  repeat match goal with
         | |- context [let (_, _) := ?m in _] =>
             let E := fresh "E" in destruct m eqn:E
         end;
  cbn [fst snd].

(** Rewrites the statement [P (fst (m g))] of an earlier lemma along a
    run [E : m g = (a, g')] found in the context. *)
Ltac recall lem :=
  let Hl := fresh "Hl" in
  pose proof lem as Hl;
  match type of Hl with
  | context [fst ?run] =>
      match goal with E : run = _ |- _ => rewrite E in Hl end
  end;
  cbn [fst] in Hl.

Lemma make_row_spec i date pair_name config g :
  let r := fst (make_row i date pair_name config g) in
  Date r = date
  /\ Currency_Pair r = pair_name
  /\ 1000000 <= Volume r < 8000000
  /\ exists random_change, Exchange_Rate r = rate_of i config random_change.
Proof.
  unfold make_row. run_rand. cbn.
  split; [reflexivity|]. split; [reflexivity|]. split.
  - match goal with E : np_randint _ _ ?g' = _ |- _ =>
      recall (np_randint_range 1000000 8000000 g' eq_refl) end.
    assumption.
  - eexists. reflexivity.
Qed.

Lemma for_pairs_keys i date items g :
  map key (fst (for_pairs i date items g)) = map (pair date) (map fst items).
Proof.
  revert g. induction items as [|[pair_name config] rest IH]; intros g.
  - reflexivity.
  - cbn [for_pairs]. run_rand. cbn [map fst]. f_equal.
    + recall (make_row_spec i date pair_name config g).
      destruct Hl as (Hd & Hp & _). unfold key. now rewrite Hd, Hp.
    + match goal with E : for_pairs _ _ _ ?g' = _ |- _ => recall (IH g') end.
      assumption.
Qed.

Lemma for_pairs_rows i date items g :
  Forall (row_of i date items) (fst (for_pairs i date items g)).
Proof.
  revert g. induction items as [|[pair_name config] rest IH]; intros g.
  - constructor.
  - cbn [for_pairs]. run_rand. constructor.
    + recall (make_row_spec i date pair_name config g).
      destruct Hl as (Hd & Hp & Hv & c & Hrate).
      split; [assumption|]. split; [assumption|].
      exists config, c. rewrite Hp. split; [left; reflexivity|assumption].
    + match goal with E : for_pairs _ _ _ ?g' = _ |- _ => recall (IH g') end.
      eapply Forall_impl; [|exact Hl].
      intros r' (Hd & Hv & config' & c & Hin & Hrate).
      split; [assumption|]. split; [assumption|].
      exists config', c. split; [right|]; assumption.
Qed.

Lemma for_dates_keys i dates items g :
  map key (fst (for_dates i dates items g)) = list_prod dates (map fst items).
Proof.
  revert i g. induction dates as [|date rest IH]; intros i g.
  - reflexivity.
  - cbn [for_dates list_prod]. run_rand. rewrite map_app. f_equal.
    + recall (for_pairs_keys i date items g). assumption.
    + match goal with E : for_dates _ _ _ ?g' = _ |- _ =>
        recall (IH (i + 1) g') end.
      assumption.
Qed.

Lemma for_dates_rows i dates items g :
  Forall (fun r => exists k, 0 <= k /\ row_of (i + k) (Date r) items r)
         (fst (for_dates i dates items g)).
Proof.
  revert i g. induction dates as [|date rest IH]; intros i g.
  - constructor.
  - cbn [for_dates]. run_rand. apply Forall_app. split.
    + recall (for_pairs_rows i date items g).
      eapply Forall_impl; [|exact Hl].
      intros r Hrow. exists 0. split; [lia|].
      rewrite Z.add_0_r. destruct Hrow as (Hd & Hrest).
      split; [reflexivity|exact Hrest].
    + match goal with E : for_dates _ _ _ ?g' = _ |- _ =>
        recall (IH (i + 1) g') end.
      eapply Forall_impl; [|exact Hl].
      intros r (k & Hk & Hrow). exists (1 + k). split; [lia|].
      replace (i + (1 + k)) with (i + 1 + k) by lia. exact Hrow.
Qed.

Lemma generate_length dates items g :
  List.length (fst (generate dates items g))
  = (List.length dates * List.length items)%nat.
Proof.
  rewrite <- (length_map key). unfold generate.
  rewrite for_dates_keys, length_prod, length_map. reflexivity.
Qed.

Lemma generate_keys_NoDup dates items g :
  NoDup dates -> NoDup (map fst items) ->
  NoDup (map key (fst (generate dates items g))).
Proof.
  intros Hd Hi. unfold generate. rewrite for_dates_keys.
  apply NoDup_list_prod; assumption.
Qed.

Lemma generate_date_ordered dates items g :
  StronglySorted Z.le dates -> date_ordered (fst (generate dates items g)).
Proof.
  intros Hs. unfold date_ordered. apply StronglySorted_map_Date.
  replace (map Date (fst (generate dates items g)))
    with (map fst (map key (fst (generate dates items g))))
    by (rewrite map_map; reflexivity).
  unfold generate. rewrite for_dates_keys.
  induction Hs as [|d ds Hs IH Hall]; cbn [list_prod].
  - constructor.
  - rewrite map_app. apply StronglySorted_app; [| exact IH |].
    + rewrite map_map. cbn [fst]. clear IH.
      induction (map fst items) as [|x xs IHx]; cbn; constructor.
      * exact IHx.
      * apply Forall_forall. intros y Hy.
        apply in_map_iff in Hy as (? & <- & _). lia.
    + intros x y Hx Hy. rewrite map_map in Hx. cbn [fst] in Hx.
      apply in_map_iff in Hx as (? & <- & _).
      apply in_map_iff in Hy as ([d' n'] & <- & Hin).
      apply in_prod_iff in Hin as [Hin _]. cbn [fst].
      rewrite Forall_forall in Hall. auto.
Qed.

(** The table of [load_data] is in date order. *)
Lemma load_data_date_ordered (g : G) : date_ordered (fst (load_data g)).
Proof.
  unfold load_data. apply generate_date_ordered, date_range_sorted.
Qed.

Lemma positive_factor (b x : Q) : (0 < b)%Q -> (0 < b * x)%Q -> (0 < x)%Q.
Proof.
  intros Hb Hbx. destruct (Qlt_le_dec 0 x) as [|Hle]; [assumption|].
  exfalso. apply (Qlt_not_le _ _ Hbx).
  setoid_replace 0%Q with (b * 0)%Q by ring.
  rewrite (Qmult_comm b x), (Qmult_comm b 0).
  apply Qmult_le_compat_r; [assumption|]. apply Qlt_le_weak. assumption.
Qed.

(** C2 (as amended).  The range of [load_data], 2023-01-01 to 2024-01-01
    with both ends included, has 366 days, so the generated table has
    366 x 6 = 2196 rows, whatever the random draws. *)
Theorem load_data_row_count (g : G) :
  List.length (Calendar.date_range (Calendar.toordinal 2023 1 1)
                                   (Calendar.toordinal 2024 1 1)) = 366%nat
  /\ List.length pairs = 6%nat
  /\ List.length (fst (load_data g)) = 2196%nat.
Proof.
  split; [reflexivity|]. split; [reflexivity|].
  unfold load_data. rewrite generate_length, date_range_length. reflexivity.
Qed.

(** What holds of every generated table: one row per (day, pair), each
    volume in [1_000_000, 8_000_000), and no (date, pair) key twice. *)
Lemma generate_rows (start stop : Z) (g : G) :
  let dates := Calendar.date_range start stop in
  let df := fst (generate dates pairs g) in
  List.length dates = Z.to_nat (stop - start + 1)
  /\ List.length df = (List.length dates * List.length pairs)%nat
  /\ NoDup (map key df)
  /\ Forall (fun r => 1000000 <= Volume r < 8000000) df.
Proof.
  intros dates df. split; [apply date_range_length|].
  split; [apply generate_length|].
  split; [apply generate_keys_NoDup;
          [apply date_range_NoDup|apply pairs_names_NoDup]|].
  subst df. unfold generate.
  eapply Forall_impl; [|apply for_dates_rows].
  intros r (k & _ & _ & Hv & _). exact Hv.
Qed.

(** The rate of a row is computed from the very draw the row takes from
    the random stream. *)
Lemma make_row_rate i date pair_name config (g : G) :
  Exchange_Rate (fst (make_row i date pair_name config g))
  = rate_of i config (fst (np_normal 0 (volatility config) g)).
Proof.
  unfold make_row, rate_of, bind, ret.
  destruct (np_normal 0 (volatility config) g) as [c g1].
  destruct (np_randint 1000000 8000000 g1) as [v g2]. reflexivity.
Qed.

(** Nothing keeps the rate positive: a draw at or below [-(1 + trend)]
    gives a rate that is zero or negative. *)
Lemma make_row_rate_not_positive i date pair_name config (g : G) :
  (0 < base config)%Q ->
  (1 + np_sin (inject_Z i * 0.02) * 0.05
   + fst (np_normal 0 (volatility config) g) <= 0)%Q ->
  ~ (0 < Exchange_Rate (fst (make_row i date pair_name config g)))%Q.
Proof.
  intros Hbase Hdraw Hpos. rewrite make_row_rate in Hpos. unfold rate_of in Hpos.
  apply py_round_pos in Hpos. apply (positive_factor _ _ Hbase) in Hpos.
  exact (Qlt_not_le _ _ Hpos Hdraw).
Qed.

End GeneratorFacts.

(** C2, as the claim states it: the table of [load_data] does not have
    365 x 6 = 2190 rows. *)
Lemma load_data_not_2190_rows :
  List.length (fst (load_data (H := Lcg.numpy) 42)) <> 2190%nat.
Proof.
  unfold load_data. rewrite generate_length, date_range_length. discriminate.
Qed.

(** C3, on the code.  On the three days from 2023-01-01 the third row, the
    first of USD/JPY, takes from the random stream a draw of -1.5, one
    standard deviation (the pair's volatility, 1.5) below the mean, and its
    rate is [round(110.0 * (1 + 0 - 1.5), 4) = -55], which is not positive;
    the table has its 3 x 6 rows, every volume in [1_000_000, 8_000_000)
    and no (date, pair) key twice. *)
Theorem generate_negative_rate :
  let g := Lcg.next (Lcg.next (Lcg.next (Lcg.next 42))) in
  let row := fst (make_row (H := Lcg.numpy) 0 Sample.new_year_2023 "USD/JPY"
                           (mkConfig 110.0 1.5) g) in
  nth_error Sample.three_days 2 = Some row
  /\ (fst (@np_normal Z Lcg.numpy 0 1.5 g) == - (1.5))%Q
  /\ (Exchange_Rate row == -55)%Q
  /\ ~ (0 < Exchange_Rate row)%Q
  /\ List.length Sample.three_days = (3 * 6)%nat
  /\ Forall (fun r => 1000000 <= Volume r < 8000000) Sample.three_days
  /\ NoDup (map key Sample.three_days).
Proof.
  intros g row.
  destruct (generate_rows (H := Lcg.numpy) Sample.new_year_2023
                          (Sample.new_year_2023 + 2) 42)
    as (_ & Hlen & Hkeys & Hvol).
  split; [vm_compute; reflexivity|]. split; [vm_compute; reflexivity|].
  split; [vm_compute; reflexivity|]. split; [vm_compute; discriminate|].
  split; [exact Hlen|]. split; [exact Hvol|exact Hkeys].
Qed.

(* ================================================================== *)
(** * The filter *)

Lemma isin_In (x : string) (values : list string) :
  isin x values = true <-> In x values.
Proof.
  unfold isin. rewrite existsb_exists. split.
  - intros (y & Hy & Heq). apply String.eqb_eq in Heq. now subst.
  - intros Hin. exists x. split; [assumption|apply String.eqb_refl].
Qed.

Lemma fold_left_max_spec (ds : list Z) (d : Z) :
  let m := fold_left Z.max ds d in
  In m (d :: ds) /\ Forall (fun x => x <= m) (d :: ds).
Proof.
  revert d. induction ds as [|x ds IH]; intros d; cbn.
  - split; [now left|]. repeat constructor. lia.
  - destruct (IH (Z.max d x)) as [Hin Hall]. split.
    + destruct Hin as [Heq|Hin]; [|now right; right].
      rewrite <- Heq. destruct (Z.max_spec d x) as [[_ ->]|[_ ->]]; auto.
    + inversion Hall as [|? ? Hhd Htl]; subst.
      constructor; [lia|]. constructor; [lia|assumption].
Qed.

Lemma fold_left_min_spec (ds : list Z) (d : Z) :
  let m := fold_left Z.min ds d in
  In m (d :: ds) /\ Forall (fun x => m <= x) (d :: ds).
Proof.
  revert d. induction ds as [|x ds IH]; intros d; cbn.
  - split; [now left|]. repeat constructor. lia.
  - destruct (IH (Z.min d x)) as [Hin Hall]. split.
    + destruct Hin as [Heq|Hin]; [|now right; right].
      rewrite <- Heq. destruct (Z.min_spec d x) as [[_ ->]|[_ ->]]; auto.
    + inversion Hall as [|? ? Hhd Htl]; subst.
      constructor; [lia|]. constructor; [lia|assumption].
Qed.

Lemma date_max_spec (df : DataFrame) :
  df <> [] ->
  exists today, date_max df = Some today
                /\ In today (map Date df)
                /\ (forall r, In r df -> Date r <= today).
Proof.
  destruct df as [|r0 df]; [congruence|]. intros _. unfold date_max.
  cbn [map]. destruct (fold_left_max_spec (map Date df) (Date r0)) as [Hin Hall].
  eexists. split; [reflexivity|]. split; [exact Hin|].
  intros r Hr. rewrite Forall_forall in Hall. apply Hall.
  change (In (Date r) (map Date (r0 :: df))). now apply in_map.
Qed.

Lemma date_min_spec (df : DataFrame) :
  df <> [] ->
  exists first, date_min df = Some first
                /\ In first (map Date df)
                /\ (forall r, In r df -> first <= Date r).
Proof.
  destruct df as [|r0 df]; [congruence|]. intros _. unfold date_min.
  cbn [map]. destruct (fold_left_min_spec (map Date df) (Date r0)) as [Hin Hall].
  eexists. split; [reflexivity|]. split; [exact Hin|].
  intros r Hr. rewrite Forall_forall in Hall. apply Hall.
  change (In (Date r) (map Date (r0 :: df))). now apply in_map.
Qed.

Lemma filtered_data_In (df : DataFrame) (currencies : list string)
      (period : string) (r : Row) :
  In r (filtered_data df currencies period)
  <-> In r df /\ In (Currency_Pair r) currencies
      /\ date_ge (Date r) (start_date df period) = true.
Proof.
  unfold filtered_data. rewrite filter_In, andb_true_iff, isin_In. tauto.
Qed.

(** C4.  On a table with rows, and for each of the four periods of the
    selectbox, the view is the table restricted, in its order, to the rows
    whose pair is selected and whose date is not before [start]; [start] is
    the latest date of the table less 30, 90 or 180 days, or its earliest
    date for "Last Year". *)
Theorem filtered_data_spec (df : DataFrame) (currencies : list string)
        (period : string) :
  df <> [] -> In period period_options ->
  exists today first start keep,
    (In today (map Date df) /\ forall r, In r df -> Date r <= today)
    /\ (In first (map Date df) /\ forall r, In r df -> first <= Date r)
    /\ (period = "Last 30 Days"%string -> start = today - 30)
    /\ (period = "Last 90 Days"%string -> start = today - 90)
    /\ (period = "Last 6 Months"%string -> start = today - 180)
    /\ (period = "Last Year"%string -> start = first)
    /\ (forall r, keep r = true
                  <-> In (Currency_Pair r) currencies /\ start <= Date r)
    /\ filtered_data df currencies period = filter keep df.
Proof.
  intros Hne Hperiod.
  destruct (date_max_spec df Hne) as (today & Hmax & Htoday).
  destruct (date_min_spec df Hne) as (first & Hmin & Hfirst).
  assert (exists start, start_date df period = Some start
            /\ (period = "Last 30 Days"%string -> start = today - 30)
            /\ (period = "Last 90 Days"%string -> start = today - 90)
            /\ (period = "Last 6 Months"%string -> start = today - 180)
            /\ (period = "Last Year"%string -> start = first))
    as (start & Hstart & H30 & H90 & H180 & Hall).
  { unfold start_date. rewrite Hmax, Hmin.
    cbn in Hperiod.
    destruct Hperiod as [<-|[<-|[<-|[<-|[]]]]]; cbn;
      eexists; (split; [reflexivity|]);
      repeat split; intros Heq; solve [reflexivity | discriminate Heq]. }
  exists today, first, start,
    (fun r => isin (Currency_Pair r) currencies && (start <=? Date r)).
  repeat (split; [assumption|]). split.
  - intros r. rewrite andb_true_iff, isin_In, Z.leb_le. tauto.
  - unfold filtered_data. rewrite Hstart. reflexivity.
Qed.

(** C8.  Filtering the view again with the same selection gives the view
    back, row for row. *)
Theorem filtered_data_idempotent (df : DataFrame) (currencies : list string)
        (period : string) :
  filtered_data (filtered_data df currencies period) currencies period
  = filtered_data df currencies period.
Proof.
  set (view := filtered_data df currencies period).
  unfold filtered_data at 1. apply filter_all. intros x Hx.
  assert (view <> []) as Hne by (intros Heq; rewrite Heq in Hx; exact Hx).
  pose proof Hx as Hx'. apply filtered_data_In in Hx' as (Hdf & Hsel & Hge).
  apply andb_true_iff. split; [now apply isin_In|].
  destruct (date_max_spec view Hne) as (m & Hmax & Hm & _).
  destruct (date_min_spec view Hne) as (m' & Hmin & _ & Hm').
  assert (df <> []) as Hne' by (intros Heq; rewrite Heq in Hdf; exact Hdf).
  destruct (date_max_spec df Hne') as (M & HMax & _ & HM).
  assert (m <= M) as HmM.
  { apply in_map_iff in Hm as (r & <- & Hr).
    apply filtered_data_In in Hr as (Hr & _). auto. }
  unfold start_date in *. rewrite Hmax, Hmin. rewrite HMax in Hge.
  destruct (period =? "Last 30 Days")%string;
    [cbn in *; apply Z.leb_le; apply Z.leb_le in Hge; lia|].
  destruct (period =? "Last 90 Days")%string;
    [cbn in *; apply Z.leb_le; apply Z.leb_le in Hge; lia|].
  destruct (period =? "Last 6 Months")%string;
    [cbn in *; apply Z.leb_le; apply Z.leb_le in Hge; lia|].
  cbn. apply Z.leb_le. auto.
Qed.

(** C5.  When the view has no row the script shows the warning and stops:
    the run ends in [Stopped], and no report (metrics, basket, statistics,
    risk lists) is produced. *)
Theorem empty_view_stops (df : DataFrame) (currencies : list string)
        (period : string) :
  filtered_data df currencies period = [] ->
  dashboard df currencies period = Stopped no_data_warning
  /\ forall report, dashboard df currencies period <> Rendered report.
Proof.
  intros Hempty. unfold dashboard. rewrite Hempty. split; [reflexivity|].
  intros report Heq. discriminate Heq.
Qed.

(* ================================================================== *)
(** * The statistics table *)

Lemma last_map {A B : Type} (f : A -> B) (l : list A) (d : A) :
  last (map f l) (f d) = f (last l d).
Proof.
  induction l as [|a [|b l] IH]; cbn in *; auto.
Qed.

Lemma last_In {A : Type} (a : A) (l : list A) (d : A) :
  In (last (a :: l) d) (a :: l).
Proof.
  revert a. induction l as [|b l IH]; intros a; [now left|].
  right. change (In (last (b :: l) d) (b :: l)). apply IH.
Qed.

Lemma StronglySorted_last {A : Type} (R : A -> A -> Prop) (a : A)
      (l : list A) (d : A) :
  (forall x, R x x) -> StronglySorted R (a :: l) ->
  forall x, In x (a :: l) -> R x (last (a :: l) d).
Proof.
  intros Hrefl. revert a. induction l as [|b l IH]; intros a Hs x Hx.
  - destruct Hx as [<-|[]]. apply Hrefl.
  - change (last (a :: b :: l) d) with (last (b :: l) d).
    inversion Hs as [|? ? Hs' Hall]; subst. destruct Hx as [<-|Hx].
    + rewrite Forall_forall in Hall. apply Hall, last_In.
    + apply IH; assumption.
Qed.

Lemma stats_data_In (view : DataFrame) (currencies : list string)
      (row : StatRow) :
  In row (stats_data view currencies) ->
  exists x xs,
    In (Stat_Currency_Pair row) currencies
    /\ pair_rates view (Stat_Currency_Pair row) = x :: xs
    /\ Current_Rate row = iloc_last x xs
    /\ Stat_Volatility row = series_std (x :: xs)
    /\ Risk_Level row = risk_level (series_std (x :: xs)).
Proof.
  induction currencies as [|c rest IH]; cbn [stats_data]; [intros []|].
  destruct (pair_rates view c) as [|x xs] eqn:Hrates.
  - intros Hin. destruct (IH Hin) as (x & xs & Hc & Hrest).
    exists x, xs. split; [now right|exact Hrest].
  - intros [<-|Hin].
    + exists x, xs. cbn. split; [now left|]. rewrite Hrates. auto.
    + destruct (IH Hin) as (x' & xs' & Hc & Hrest).
      exists x', xs'. split; [now right|exact Hrest].
Qed.

Lemma stats_data_pairs (view : DataFrame) (currencies : list string)
      (c : string) :
  In c (map Stat_Currency_Pair (stats_data view currencies))
  <-> In c currencies /\ pair_rates view c <> [].
Proof.
  induction currencies as [|c' rest IH]; cbn [stats_data].
  - cbn. tauto.
  - destruct (pair_rates view c') as [|x xs] eqn:Hrates.
    + rewrite IH. cbn. split.
      * intros [Hin Hne]. auto.
      * intros [[->|Hin] Hne]; [congruence|auto].
    + cbn [map In Stat_Currency_Pair]. rewrite IH. split.
      * intros [<-|[Hin Hne]]; [|auto]. split; [now left|]. congruence.
      * intros [[->|Hin] Hne]; auto.
Qed.

(** C6.  On a table in date order, every row of the statistics table
    carries as its current rate the rate of a row of the view, of that
    pair, whose date no other row of that pair in the view exceeds. *)
Theorem current_rate_is_latest (df : DataFrame) (currencies : list string)
        (period : string) (row : StatRow) :
  date_ordered df ->
  let view := filtered_data df currencies period in
  In row (stats_data view currencies) ->
  exists r,
    In r view
    /\ Currency_Pair r = Stat_Currency_Pair row
    /\ (forall r', In r' view ->
                   Currency_Pair r' = Stat_Currency_Pair row ->
                   Date r' <= Date r)
    /\ Current_Rate row = Exchange_Rate r.
Proof.
  intros Hord view Hrow.
  destruct (stats_data_In _ _ _ Hrow) as (x & xs & _ & Hrates & Hcur & _).
  set (c := Stat_Currency_Pair row) in *.
  unfold pair_rates in Hrates.
  set (rows := filter (fun r => (Currency_Pair r =? c)%string) view) in *.
  destruct rows as [|r0 rs] eqn:Hrows; [discriminate|].
  assert (StronglySorted by_date (r0 :: rs)) as Hsorted.
  { rewrite <- Hrows. subst rows view. unfold filtered_data.
    now do 2 apply StronglySorted_filter. }
  assert (forall r, In r (r0 :: rs)
                    <-> In r view /\ Currency_Pair r = c) as Hmem.
  { intros r. rewrite <- Hrows. subst rows. rewrite filter_In, String.eqb_eq.
    tauto. }
  exists (last (r0 :: rs) r0).
  destruct (proj1 (Hmem _) (last_In r0 rs r0)) as [Hin Hpair].
  split; [assumption|]. split; [assumption|]. split.
  - intros r' Hin' Hpair'.
    apply (StronglySorted_last by_date r0 rs r0); auto.
    + intros r. unfold by_date. lia.
    + apply Hmem. auto.
  - rewrite Hcur. unfold iloc_last. cbn [map] in Hrates.
    injection Hrates as Hx Hxs. subst x xs.
    destruct rs as [|r1 rs']; [reflexivity|].
    change (last (r0 :: r1 :: rs') r0) with (last (r1 :: rs') r0).
    apply last_map.
Qed.

(* ================================================================== *)
(** * The basket *)

Lemma insert_date_In (d x : Z) (ds : list Z) :
  In x (insert_date d ds) <-> x = d \/ In x ds.
Proof.
  induction ds as [|y ds IH]; cbn.
  - intuition.
  - destruct (d <? y) eqn:Hlt; [cbn; intuition|].
    destruct (d =? y) eqn:Heq.
    + apply Z.eqb_eq in Heq. subst. cbn. intuition.
    + cbn. rewrite IH. intuition.
Qed.

Lemma insert_date_sorted (d : Z) (ds : list Z) :
  StronglySorted Z.lt ds -> StronglySorted Z.lt (insert_date d ds).
Proof.
  induction 1 as [|y ds Hs IH Hall]; cbn.
  - repeat constructor.
  - destruct (d <? y) eqn:Hlt.
    + apply Z.ltb_lt in Hlt. constructor; [now constructor|].
      constructor; [assumption|].
      eapply Forall_impl; [|exact Hall]. cbn. intros; lia.
    + destruct (d =? y) eqn:Heq; [now constructor|].
      apply Z.ltb_ge in Hlt. apply Z.eqb_neq in Heq.
      constructor; [assumption|].
      apply Forall_forall. intros x Hx. apply insert_date_In in Hx as [->|Hx].
      * lia.
      * rewrite Forall_forall in Hall. auto.
Qed.

Lemma group_dates_In (d : Z) (dates : list Z) :
  In d (group_dates dates) <-> In d dates.
Proof.
  induction dates as [|x dates IH]; cbn; [tauto|].
  rewrite insert_date_In, IH. intuition.
Qed.

Lemma group_dates_sorted (dates : list Z) :
  StronglySorted Z.lt (group_dates dates).
Proof.
  induction dates as [|x dates IH]; cbn; [constructor|].
  now apply insert_date_sorted.
Qed.

Lemma filter_single {A : Type} (f : A -> bool) (l : list A) (a : A) :
  NoDup l -> In a l -> f a = true ->
  (forall x, In x l -> f x = true -> x = a) ->
  filter f l = [a].
Proof.
  induction 1 as [|b l Hb Hnd IH]; cbn; [intros []|].
  intros Hin Ha Huniq. destruct Hin as [->|Hin].
  - rewrite Ha. f_equal. apply filter_none. intros x Hx.
    destruct (f x) eqn:Hfx; [|reflexivity].
    exfalso. apply Hb. rewrite <- (Huniq x); auto.
  - destruct (f b) eqn:Hfb.
    + exfalso. apply Hb. rewrite (Huniq b); auto.
    + apply IH; auto.
Qed.

(** C7.  The basket has one entry per date of the view, in ascending
    order; the value at a date is the mean of the rates of the rows of that
    date: multiplied by the number of those rows it is the sum of their
    rates.  In a view of a single pair, with one row per (date, pair), the
    value at a row's date is that row's rate. *)
Theorem basket_is_daily_mean (view : DataFrame) :
  StronglySorted Z.lt (map fst (basket_data view))
  /\ (forall d, In d (map Date view) ->
        let rows := filter (fun r => Date r =? d) view in
        exists v,
          In (d, Some v) (basket_data view)
          /\ (forall v', In (d, v') (basket_data view) -> v' = Some v)
          /\ (0 < List.length rows)%nat
          /\ (v * inject_Z (Z.of_nat (List.length rows))
              == fold_right Qplus 0 (map Exchange_Rate rows))%Q)
  /\ ((forall r r', In r view -> In r' view ->
                    Currency_Pair r = Currency_Pair r') ->
      NoDup (map key view) ->
      forall r, In r view ->
        exists v, In (Date r, Some v) (basket_data view)
                  /\ (v == Exchange_Rate r)%Q).
Proof.
  assert (forall d v', In (d, v') (basket_data view) ->
                       In d (map Date view)
                       /\ v' = series_mean (date_rates view d)) as Hentry.
  { intros d v' Hin. unfold basket_data in Hin.
    apply in_map_iff in Hin as (d' & Heq & Hd'). inversion Heq; subst.
    split; [now apply group_dates_In|reflexivity]. }
  assert (forall d, In d (map Date view) ->
                    In (d, series_mean (date_rates view d)) (basket_data view))
    as Hcover.
  { intros d Hd. unfold basket_data.
    apply in_map_iff. exists d. split; [reflexivity|now apply group_dates_In]. }
  split; [|split].
  - unfold basket_data. rewrite map_map. cbn [fst]. rewrite map_id.
    apply group_dates_sorted.
  - intros d Hd rows.
    assert (rows <> []) as Hne.
    { apply in_map_iff in Hd as (r & Hr & Hin). intros Hnil.
      assert (In r rows) as Hf
        by (apply filter_In; split; [assumption|now apply Z.eqb_eq]).
      rewrite Hnil in Hf. exact Hf. }
    pose proof (Hcover d Hd) as Hin.
    change (date_rates view d) with (map Exchange_Rate rows) in Hin.
    assert (forall v', In (d, v') (basket_data view) ->
                       v' = series_mean (map Exchange_Rate rows)) as Honly
      by (intros v' Hv'; now apply Hentry in Hv' as [_ ->]).
    destruct rows as [|r0 rs]; [congruence|].
    cbn [map series_mean] in Hin, Honly. eexists. split; [exact Hin|].
    split; [exact Honly|]. split; [cbn [List.length]; lia|].
    change (Exchange_Rate r0 :: map Exchange_Rate rs)
      with (map Exchange_Rate (r0 :: rs)).
    unfold series_sum, Qlen. rewrite length_map.
    rewrite Qmult_comm. apply Qmult_div_r.
    rewrite (inject_Z_injective _ 0). cbn [List.length]. lia.
  - intros Hone Hkeys r Hr.
    assert (date_rates view (Date r) = [Exchange_Rate r]) as Hrates.
    { unfold date_rates.
      rewrite (filter_single (fun r' => Date r' =? Date r) view r).
      - reflexivity.
      - eapply NoDup_map_inv; exact Hkeys.
      - assumption.
      - apply Z.eqb_refl.
      - intros x Hx Hdate. apply Z.eqb_eq in Hdate.
        apply (NoDup_map_injective key view); auto.
        unfold key. rewrite Hdate, (Hone x r); auto. }
    pose proof (Hcover (Date r) (in_map Date view r Hr)) as Hin.
    rewrite Hrates in Hin. cbn [series_mean] in Hin.
    eexists. split; [exact Hin|].
    unfold series_sum, Qlen. cbn. field.
Qed.

(* ================================================================== *)
(** * The risk labels and the risk lists *)

Lemma std_lt_ge (s : stdval) (t : Q) :
  s <> NaN -> (0 <= t)%Q -> std_lt s t = negb (std_ge s t).
Proof.
  destruct s as [|v]; [congruence|]. intros _ Ht. cbn.
  apply Qle_bool_iff in Ht. rewrite Ht. reflexivity.
Qed.

Lemma std_ge_weaken (s : stdval) :
  std_ge s 5.0 = true -> std_ge s 1.0 = true.
Proof.
  destruct s as [|v]; cbn; [discriminate|].
  change (Qle_bool 0 5.0) with true. change (Qle_bool 0 1.0) with true.
  cbn match. rewrite !Qle_bool_iff. intros H5.
  eapply Qle_trans; [|exact H5]. vm_compute. discriminate.
Qed.

Lemma pair_rates_nil (view : DataFrame) (c : string) :
  pair_rates view c = [] <-> (forall r, In r view -> Currency_Pair r <> c).
Proof.
  unfold pair_rates. split.
  - intros Hnil r Hr Hpair. apply map_eq_nil in Hnil.
    assert (In r (filter (fun r => (Currency_Pair r =? c)%string) view)) as Hf
      by (apply filter_In; split; [assumption|now apply String.eqb_eq]).
    rewrite Hnil in Hf. exact Hf.
  - intros Hnone.
    replace (filter (fun r => (Currency_Pair r =? c)%string) view) with (@nil Row);
      [reflexivity|].
    symmetry. apply filter_none. intros r Hr. apply String.eqb_neq. auto.
Qed.

(** The label of the metric follows strict thresholds on the root: above
    5, above 1, else low. *)
Lemma risk_of_root (v : Q) :
  ((25 < v)%Q -> risk (Sqrt v) = "High"%string)
  /\ ((1 < v)%Q -> (v <= 25)%Q -> risk (Sqrt v) = "Medium"%string)
  /\ ((v <= 1)%Q -> risk (Sqrt v) = "Low"%string).
Proof.
  unfold risk, std_gt.
  change (Qle_bool 0 5) with true. change (Qle_bool 0 1) with true. cbn match.
  change (5 * 5)%Q with 25%Q. change (1 * 1)%Q with 1%Q.
  split; [|split].
  - intros H25. apply Qltb_lt in H25. now rewrite H25.
  - intros H1 H25. apply Qltb_lt in H1. apply Qle_bool_iff in H25.
    unfold Qltb at 1. rewrite H25. cbn. now rewrite H1.
  - intros H1.
    assert (Qltb 25 v = false) as ->.
    { unfold Qltb. apply negb_false_iff, Qle_bool_iff.
      eapply Qle_trans; [exact H1|]. vm_compute. discriminate. }
    unfold Qltb. apply Qle_bool_iff in H1. now rewrite H1.
Qed.

(** C1, on the code.  The labels of the metric and of the statistics table
    are strict at both thresholds, while the risk lists are inclusive: three
    rates of standard deviation exactly 5 are labelled Medium and listed
    under high risk, and three rates of standard deviation exactly 1 are
    labelled Low and listed under medium risk. *)
Theorem risk_label_strict_at_thresholds :
  (exists v, series_std (map Exchange_Rate Sample.spread_five) = Sqrt v
             /\ (v == 5 * 5)%Q)
  /\ (exists report,
        dashboard Sample.spread_five ["USD/JPY"%string] "Last Year"
        = Rendered report
        /\ metric_risk (report_metrics report) = "Medium"%string
        /\ map Risk_Level (report_stats report) = ["🟡 Medium"%string]
        /\ report_med report = []
        /\ report_high report = ["USD/JPY"%string])
  /\ (exists v, series_std (map Exchange_Rate Sample.spread_one) = Sqrt v
                /\ (v == 1 * 1)%Q)
  /\ (exists report,
        dashboard Sample.spread_one ["USD/INR"%string] "Last Year"
        = Rendered report
        /\ metric_risk (report_metrics report) = "Low"%string
        /\ map Risk_Level (report_stats report) = ["🟢 Low"%string]
        /\ report_low report = []
        /\ report_med report = ["USD/INR"%string]).
Proof.
  split; [eexists; split; reflexivity|].
  split; [eexists; split; [reflexivity|repeat split]|].
  split; [eexists; split; reflexivity|].
  eexists; split; [reflexivity|repeat split].
Qed.

(** C9.  When the view has rows but none for a selected pair, the run
    goes to its end, and that pair is neither in the statistics table nor
    in any of the three risk lists. *)
Theorem absent_pair_is_skipped (df : DataFrame) (currencies : list string)
        (period : string) (c : string) :
  let view := filtered_data df currencies period in
  view <> [] ->
  In c currencies ->
  (forall r, In r view -> Currency_Pair r <> c) ->
  exists report,
    dashboard df currencies period = Rendered report
    /\ ~ In c (map Stat_Currency_Pair (report_stats report))
    /\ ~ In c (report_low report)
    /\ ~ In c (report_med report)
    /\ ~ In c (report_high report).
Proof.
  intros view Hne Hsel Hnone. unfold dashboard. fold view.
  destruct view as [|r0 rest] eqn:Hview; [congruence|]. rewrite <- Hview.
  eexists. split; [reflexivity|]. cbn.
  apply pair_rates_nil in Hnone. rewrite <- Hview in Hnone.
  split; [|split; [|split]].
  - rewrite stats_data_pairs. tauto.
  - unfold low_risk. rewrite filter_In, Hnone. cbn. intuition discriminate.
  - unfold med_risk. rewrite filter_In, Hnone. cbn. intuition discriminate.
  - unfold high_risk. rewrite filter_In, Hnone. cbn. intuition discriminate.
Qed.

(** C10.  A selected pair whose standard deviation in the view is a number
    (which takes two rows of it at least) is in exactly one of the three
    risk lists. *)
Theorem risk_lists_partition (view : DataFrame) (currencies : list string)
        (c : string) :
  In c currencies ->
  series_std (pair_rates view c) <> NaN ->
  (In c (low_risk view currencies)
   /\ ~ In c (med_risk view currencies)
   /\ ~ In c (high_risk view currencies))
  \/ (~ In c (low_risk view currencies)
      /\ In c (med_risk view currencies)
      /\ ~ In c (high_risk view currencies))
  \/ (~ In c (low_risk view currencies)
      /\ ~ In c (med_risk view currencies)
      /\ In c (high_risk view currencies)).
Proof.
  intros Hsel Hnum. unfold low_risk, med_risk, high_risk.
  rewrite !filter_In.
  rewrite (std_lt_ge _ 1.0 Hnum) by (vm_compute; discriminate).
  rewrite (std_lt_ge _ 5.0 Hnum) by (vm_compute; discriminate).
  pose proof (std_ge_weaken (series_std (pair_rates view c))) as Hweak.
  destruct (std_ge (series_std (pair_rates view c)) 5.0) eqn:H5.
  - rewrite (Hweak eq_refl). cbn. right. right. intuition discriminate.
  - destruct (std_ge (series_std (pair_rates view c)) 1.0) eqn:H1; cbn.
    + right. left. intuition discriminate.
    + left. intuition discriminate.
Qed.

(* ================================================================== *)
(** * The comparisons of [stdval] are those of the real square root *)

Module Root.

Import Reals Qreals Lra.
Local Open Scope R_scope.

Lemma square_lt_sqrt (a b : R) : 0 <= a -> 0 <= b -> (a * a < b <-> a < sqrt b).
Proof.
  intros Ha Hb. split.
  - intros Hlt. rewrite <- (sqrt_square a Ha). apply sqrt_lt_1_alt. nra.
  - intros Hlt. rewrite <- (sqrt_sqrt b Hb). pose proof (sqrt_pos b). nra.
Qed.

Lemma sqrt_lt_square (a b : R) : 0 <= a -> 0 <= b -> (b < a * a <-> sqrt b < a).
Proof.
  intros Ha Hb. split.
  - intros Hlt. rewrite <- (sqrt_square a Ha). apply sqrt_lt_1_alt. nra.
  - intros Hlt. rewrite <- (sqrt_sqrt b Hb) at 1. pose proof (sqrt_pos b). nra.
Qed.

Lemma square_le_sqrt (a b : R) : 0 <= a -> 0 <= b -> (a * a <= b <-> a <= sqrt b).
Proof.
  intros Ha Hb. split.
  - intros Hle. rewrite <- (sqrt_square a Ha). apply sqrt_le_1_alt. exact Hle.
  - intros Hle. rewrite <- (sqrt_sqrt b Hb). pose proof (sqrt_pos b). nra.
Qed.

Lemma Q2R_nonneg (q : Q) : (0 <= q)%Q -> 0 <= Q2R q.
Proof. intros Hq. apply Qle_Rle in Hq. now rewrite RMicromega.Q2R_0 in Hq. Qed.

Lemma std_gt_root (v t : Q) :
  (0 <= v)%Q -> (std_gt (Sqrt v) t = true <-> Q2R t < root v).
Proof.
  intros Hv. apply Q2R_nonneg in Hv. unfold std_gt, root.
  destruct (Qle_bool 0 t) eqn:Ht.
  - apply Qle_bool_iff, Q2R_nonneg in Ht.
    rewrite Qltb_lt, <- square_lt_sqrt, <- Q2R_mult by assumption.
    split; [apply Qlt_Rlt|apply Rlt_Qlt].
  - apply Qle_bool_false, Qlt_Rlt in Ht. rewrite RMicromega.Q2R_0 in Ht.
    pose proof (sqrt_pos (Q2R v)). split; [lra|reflexivity].
Qed.

Lemma std_lt_root (v t : Q) :
  (0 <= v)%Q -> (std_lt (Sqrt v) t = true <-> root v < Q2R t).
Proof.
  intros Hv. apply Q2R_nonneg in Hv. unfold std_lt, root.
  destruct (Qle_bool 0 t) eqn:Ht.
  - apply Qle_bool_iff, Q2R_nonneg in Ht.
    rewrite Qltb_lt, <- sqrt_lt_square, <- Q2R_mult by assumption.
    split; [apply Qlt_Rlt|apply Rlt_Qlt].
  - apply Qle_bool_false, Qlt_Rlt in Ht. rewrite RMicromega.Q2R_0 in Ht.
    pose proof (sqrt_pos (Q2R v)). split; [discriminate|lra].
Qed.

Lemma std_ge_root (v t : Q) :
  (0 <= v)%Q -> (std_ge (Sqrt v) t = true <-> Q2R t <= root v).
Proof.
  intros Hv. apply Q2R_nonneg in Hv. unfold std_ge, root.
  destruct (Qle_bool 0 t) eqn:Ht.
  - apply Qle_bool_iff, Q2R_nonneg in Ht.
    rewrite Qle_bool_iff, <- square_le_sqrt, <- Q2R_mult by assumption.
    split; [apply Qle_Rle|apply Rle_Qle].
  - apply Qle_bool_false, Qlt_Rlt in Ht. rewrite RMicromega.Q2R_0 in Ht.
    pose proof (sqrt_pos (Q2R v)). split; [lra|reflexivity].
Qed.

End Root.

Lemma series_sum_squares_nonneg (m : Q) (xs : list Q) :
  (0 <= series_sum (map (fun x => (x - m) * (x - m)) xs))%Q.
Proof.
  induction xs as [|x xs IH]; cbn [map series_sum fold_right]; [discriminate|].
  apply (Qle_trans _ (0 + 0)%Q); [discriminate|].
  apply Qplus_le_compat; [|exact IH].
  destruct (x - m)%Q as [n d]. unfold Qle, Qmult. cbn. nia.
Qed.

Lemma series_std_cases (xs : list Q) :
  series_std xs = NaN
  \/ exists m,
       series_std xs
       = Sqrt (series_sum (map (fun x => (x - m) * (x - m)) xs)
               / (Qlen xs - 1))%Q
       /\ (2 <= List.length xs)%nat.
Proof.
  destruct xs as [|x [|y xs]]; [left; reflexivity|left; reflexivity|right].
  eexists. split; [reflexivity|]. cbn [List.length]. lia.
Qed.

(** The radicand of a standard deviation is a variance, never negative. *)
Lemma series_std_radicand (xs : list Q) (v : Q) :
  series_std xs = Sqrt v -> (0 <= v)%Q.
Proof.
  destruct (series_std_cases xs) as [->|(m & -> & Hlen)]; [discriminate|].
  intros Heq. inversion Heq as [Hv]. clear Heq Hv.
  apply Qmult_le_0_compat; [apply series_sum_squares_nonneg|].
  apply Qinv_le_0_compat. unfold Qlen.
  unfold Qle, Qminus, Qplus, Qopp, inject_Z. cbn. lia.
Qed.

(* ================================================================== *)
(** * Minimum, maximum and mean of a series *)

Lemma Qminb_spec (x y : Q) :
  (Qminb x y = x \/ Qminb x y = y) /\ (Qminb x y <= x)%Q /\ (Qminb x y <= y)%Q.
Proof.
  unfold Qminb. destruct (Qle_bool x y) eqn:Hb.
  - apply Qle_bool_iff in Hb. split; [now left|]. split; [apply Qle_refl|exact Hb].
  - apply Qle_bool_false in Hb. split; [now right|].
    split; [apply Qlt_le_weak, Hb|apply Qle_refl].
Qed.

Lemma Qmaxb_spec (x y : Q) :
  (Qmaxb x y = x \/ Qmaxb x y = y) /\ (x <= Qmaxb x y)%Q /\ (y <= Qmaxb x y)%Q.
Proof.
  unfold Qmaxb. destruct (Qle_bool x y) eqn:Hb.
  - apply Qle_bool_iff in Hb. split; [now right|]. split; [exact Hb|apply Qle_refl].
  - apply Qle_bool_false in Hb. split; [now left|].
    split; [apply Qle_refl|apply Qlt_le_weak, Hb].
Qed.

Lemma series_min_spec (x : Q) (xs : list Q) :
  In (series_min x xs) (x :: xs)
  /\ Forall (fun y => (series_min x xs <= y)%Q) (x :: xs).
Proof.
  unfold series_min. revert x. induction xs as [|y xs IH]; intros x; cbn [fold_left].
  - split; [now left|]. repeat constructor. apply Qle_refl.
  - destruct (IH (Qminb x y)) as [Hin Hall].
    destruct (Qminb_spec x y) as (Hcase & Hx & Hy).
    inversion Hall as [|? ? Hhd Htl]; subst. split.
    + destruct Hin as [Heq|Hin]; [|now right; right].
      rewrite <- Heq. destruct Hcase as [->| ->]; [now left|now right; left].
    + constructor; [eapply Qle_trans; eassumption|].
      constructor; [eapply Qle_trans; eassumption|assumption].
Qed.

Lemma series_max_spec (x : Q) (xs : list Q) :
  In (series_max x xs) (x :: xs)
  /\ Forall (fun y => (y <= series_max x xs)%Q) (x :: xs).
Proof.
  unfold series_max. revert x. induction xs as [|y xs IH]; intros x; cbn [fold_left].
  - split; [now left|]. repeat constructor. apply Qle_refl.
  - destruct (IH (Qmaxb x y)) as [Hin Hall].
    destruct (Qmaxb_spec x y) as (Hcase & Hx & Hy).
    inversion Hall as [|? ? Hhd Htl]; subst. split.
    + destruct Hin as [Heq|Hin]; [|now right; right].
      rewrite <- Heq. destruct Hcase as [->| ->]; [now left|now right; left].
    + constructor; [eapply Qle_trans; eassumption|].
      constructor; [eapply Qle_trans; eassumption|assumption].
Qed.





Lemma series_min_max_bounds (x : Q) (xs : list Q) :
  Forall (fun y => (series_min x xs <= y)%Q /\ (y <= series_max x xs)%Q)
         (x :: xs).
Proof.
  destruct (series_min_spec x xs) as [_ Hmin].
  destruct (series_max_spec x xs) as [_ Hmax].
  rewrite Forall_forall in *. intros y Hy. split; auto.
Qed.

(* ================================================================== *)
(** * More on the statistics table *)

Lemma stats_data_row (view : DataFrame) (currencies : list string)
      (row : StatRow) :
  In row (stats_data view currencies) ->
  exists c x xs,
    In c currencies
    /\ pair_rates view c = x :: xs
    /\ row = {| Stat_Currency_Pair := c;
                Current_Rate := iloc_last x xs;
                Peak_Rate := series_max x xs;
                Lowest_Rate := series_min x xs;
                Average_Rate := (series_sum (x :: xs) / Qlen (x :: xs))%Q;
                Stat_Volatility := series_std (x :: xs);
                Risk_Level := risk_level (series_std (x :: xs)) |}.
Proof.
  induction currencies as [|c rest IH]; cbn [stats_data]; [intros []|].
  destruct (pair_rates view c) as [|x xs] eqn:Hrates.
  - intros Hin. destruct (IH Hin) as (c' & x & xs & Hc & Hrest).
    exists c', x, xs. split; [now right|exact Hrest].
  - intros [<-|Hin].
    + exists c, x, xs. split; [now left|]. split; [assumption|reflexivity].
    + destruct (IH Hin) as (c' & x' & xs' & Hc & Hrest).
      exists c', x', xs'. split; [now right|exact Hrest].
Qed.


(** The statistics table lists, in the order of the selection, the selected
    pairs that have a row in the view, so it never has more rows than the
    "Currency Pairs" metric counts. *)
Theorem stats_rows_follow_selection (view : DataFrame)
        (currencies : list string) :
  map Stat_Currency_Pair (stats_data view currencies)
  = filter (fun c => match pair_rates view c with [] => false | _ => true end)
           currencies
  /\ (List.length (stats_data view currencies)
      <= metric_pairs (key_metrics view currencies))%nat.
Proof.
  assert (map Stat_Currency_Pair (stats_data view currencies)
          = filter (fun c => match pair_rates view c with
                             | [] => false | _ => true end) currencies) as Heq.
  { induction currencies as [|c rest IH]; [reflexivity|].
    cbn [stats_data filter]. destruct (pair_rates view c); [exact IH|].
    cbn [map Stat_Currency_Pair]. now rewrite IH. }
  split; [exact Heq|].
  rewrite <- (length_map Stat_Currency_Pair), Heq. cbn [key_metrics metric_pairs].
  apply filter_length_le.
Qed.

(** A selected pair with exactly one row in the view has a row in the
    statistics table whose four rates are that row's rate, whose volatility
    is not a number and whose label is the low one; the pair is in none of
    the three risk lists. *)
Theorem single_row_pair (view : DataFrame) (currencies : list string)
        (c : string) (x : Q) :
  In c currencies ->
  pair_rates view c = [x] ->
  (exists row,
     In row (stats_data view currencies)
     /\ Stat_Currency_Pair row = c
     /\ Current_Rate row = x /\ Peak_Rate row = x /\ Lowest_Rate row = x
     /\ (Average_Rate row == x)%Q
     /\ Stat_Volatility row = NaN
     /\ Risk_Level row = "🟢 Low"%string)
  /\ ~ In c (low_risk view currencies)
  /\ ~ In c (med_risk view currencies)
  /\ ~ In c (high_risk view currencies).
Proof.
  intros Hsel Hrates. split.
  - induction currencies as [|c' rest IH]; [destruct Hsel|].
    cbn [stats_data]. destruct (String.string_dec c' c) as [->|Hne].
    + rewrite Hrates. eexists. split; [left; reflexivity|].
      cbn. repeat split; try reflexivity. unfold Qlen. cbn. field.
    + destruct Hsel as [Heq|Hsel]; [congruence|].
      destruct (IH Hsel) as (row & Hin & Hrest).
      exists row. split; [|exact Hrest].
      destruct (pair_rates view c'); [assumption|now right].
  - unfold low_risk, med_risk, high_risk. rewrite !filter_In, Hrates. cbn.
    intuition discriminate.
Qed.



(** Every pair of a risk list has at least two rows in the view, and so a
    row in the statistics table. *)
Theorem risk_lists_within_table (view : DataFrame) (currencies : list string)
        (c : string) :
  In c (low_risk view currencies)
  \/ In c (med_risk view currencies)
  \/ In c (high_risk view currencies) ->
  (2 <= List.length (pair_rates view c))%nat
  /\ In c (map Stat_Currency_Pair (stats_data view currencies)).
Proof.
  unfold low_risk, med_risk, high_risk. rewrite !filter_In, andb_true_iff.
  intros Hin.
  assert (In c currencies /\ series_std (pair_rates view c) <> NaN) as [Hsel Hnum].
  { destruct Hin as [[Hsel Hb]|[[Hsel [Hb _]]|[Hsel Hb]]];
      (split; [assumption|]); intros Hnan; rewrite Hnan in Hb; discriminate. }
  assert (2 <= List.length (pair_rates view c))%nat as Hlen.
  { destruct (series_std_cases (pair_rates view c)) as [Hnan|(_ & _ & Hlen)];
      [contradiction|assumption]. }
  split; [assumption|]. apply stats_data_pairs. split; [assumption|].
  intros Hnil. rewrite Hnil in Hlen. cbn in Hlen. lia.
Qed.

(* ================================================================== *)
(** * More on the filter *)

Lemma filter_filter_andb {A : Type} (f g : A -> bool) (l : list A) :
  filter f (filter g l) = filter (fun x => g x && f x) l.
Proof.
  induction l as [|a l IH]; [reflexivity|]. cbn.
  destruct (g a); cbn; [destruct (f a)|]; now rewrite IH.
Qed.

(** The start date depends on the table and the period only, so a smaller
    selection gives the view of the larger one restricted to its pairs. *)
Theorem filtered_data_subselection (df : DataFrame)
        (narrow wide : list string) (period : string) :
  (forall c, In c narrow -> In c wide) ->
  filtered_data df narrow period
  = filter (fun r => isin (Currency_Pair r) narrow)
           (filtered_data df wide period).
Proof.
  intros Hincl. unfold filtered_data. rewrite filter_filter_andb.
  apply filter_ext_in. intros r _.
  destruct (isin (Currency_Pair r) narrow) eqn:Hn.
  - apply isin_In, Hincl, isin_In in Hn. rewrite Hn. cbn.
    now rewrite andb_true_r.
  - cbn. now rewrite andb_false_r.
Qed.

(** The four windows nest: with [today] the latest date of the table, the
    view of 30 days is the view of 90 days cut at [today - 30], that one the
    view of 6 months cut at [today - 90], that one the view of the last year
    cut at [today - 180]; and the view of the last year holds every row of a
    selected pair. *)
Theorem windows_nest (df : DataFrame) (currencies : list string) (today : Z) :
  date_max df = Some today ->
  filtered_data df currencies "Last 30 Days"
  = filter (fun r => today - 30 <=? Date r)
           (filtered_data df currencies "Last 90 Days")
  /\ filtered_data df currencies "Last 90 Days"
     = filter (fun r => today - 90 <=? Date r)
              (filtered_data df currencies "Last 6 Months")
  /\ filtered_data df currencies "Last 6 Months"
     = filter (fun r => today - 180 <=? Date r)
              (filtered_data df currencies "Last Year")
  /\ filtered_data df currencies "Last Year"
     = filter (fun r => isin (Currency_Pair r) currencies) df.
Proof.
  intros Hmax.
  assert (df <> []) as Hne by (intros ->; discriminate Hmax).
  destruct (date_min_spec df Hne) as (first & Hmin & _ & Hfirst).
  unfold filtered_data, start_date. rewrite Hmax, Hmin. cbn.
  rewrite !filter_filter_andb.
  repeat split; apply filter_ext_in; intros r Hr;
    destruct (isin (Currency_Pair r) currencies); cbn; try reflexivity.
  - destruct (today - 30 <=? Date r) eqn:H30; [|now rewrite andb_false_r].
    apply Z.leb_le in H30. rewrite andb_true_r. symmetry. apply Z.leb_le. lia.
  - destruct (today - 90 <=? Date r) eqn:H90; [|now rewrite andb_false_r].
    apply Z.leb_le in H90. rewrite andb_true_r. symmetry. apply Z.leb_le. lia.
  - destruct (today - 180 <=? Date r) eqn:H180; [|now rewrite andb_false_r].
    rewrite andb_true_r. symmetry. apply Z.leb_le. auto.
  - apply Z.leb_le. auto.
Qed.

(** The filter keeps what the table has: rows in date order stay in date
    order, and keys that are unique stay unique. *)
Theorem filtered_data_keeps_invariants (df : DataFrame)
        (currencies : list string) (period : string) :
  (date_ordered df -> date_ordered (filtered_data df currencies period))
  /\ (NoDup (map key df) ->
      NoDup (map key (filtered_data df currencies period))).
Proof.
  split.
  - intros Hord. unfold filtered_data. now apply StronglySorted_filter.
  - unfold filtered_data. generalize (fun r =>
      isin (Currency_Pair r) currencies
      && date_ge (Date r) (start_date df period)).
    intros f. induction df as [|r df IH]; cbn; [auto|].
    intros Hnd. inversion Hnd as [|? ? Hnotin Hnd']; subst.
    destruct (f r); [|auto]. cbn. constructor; [|auto].
    intros Hin. apply Hnotin. apply in_map_iff in Hin as (r' & Heq & Hr').
    apply filter_In in Hr' as [Hr' _]. rewrite <- Heq. now apply in_map.
Qed.

(* ================================================================== *)
(** * Distinct values *)

Lemma unique_In (x : string) (values : list string) :
  In x (unique values) <-> In x values.
Proof.
  induction values as [|y rest IH]; cbn [unique]; [tauto|].
  cbn [In]. rewrite filter_In, IH, negb_true_iff, String.eqb_neq.
  destruct (String.string_dec y x) as [->|Hne]; [tauto|].
  split; [tauto|]. intros [Heq|Hin]; [tauto|]. right. split; [assumption|].
  congruence.
Qed.

Lemma unique_NoDup (values : list string) : NoDup (unique values).
Proof.
  induction values as [|y rest IH]; cbn [unique]; constructor.
  - rewrite filter_In, String.eqb_refl. cbn. intuition discriminate.
  - now apply NoDup_filter.
Qed.

Lemma unique_id (values : list string) :
  NoDup values -> unique values = values.
Proof.
  induction 1 as [|y rest Hy _ IH]; cbn [unique]; [reflexivity|].
  rewrite IH. f_equal. apply filter_all. intros x Hx.
  apply negb_true_iff, String.eqb_neq. congruence.
Qed.

Lemma unique_app (l l' : list string) :
  unique (l ++ l')
  = unique l ++ filter (fun y => negb (isin y l)) (unique l').
Proof.
  induction l as [|a l IH]; cbn [app unique].
  - cbn. symmetry. apply filter_all. reflexivity.
  - rewrite IH, filter_app, filter_filter_andb. cbn [app]. do 2 f_equal.
    apply filter_ext. intros y. unfold isin. cbn [existsb].
    rewrite negb_orb. apply andb_comm.
Qed.

(** A list written out several times over has the distinct values of one
    copy. *)
Lemma unique_repeated (names : list string) (copies : list (list string)) :
  NoDup names -> copies <> [] -> Forall (eq names) copies ->
  unique (List.concat copies) = names.
Proof.
  intros Hnd Hne Hall. destruct copies as [|c copies]; [congruence|].
  inversion Hall as [|? ? <- Hrest]; subst. cbn [List.concat].
  rewrite unique_app, (unique_id _ Hnd).
  rewrite (proj2 (filter_none _ _)); [apply app_nil_r|].
  intros y Hy. apply negb_false_iff, isin_In.
  apply unique_In, in_concat in Hy as (c' & Hc & Hy).
  rewrite Forall_forall in Hrest. now rewrite (Hrest c' Hc).
Qed.

(* ================================================================== *)
(** * The pipeline on the generated table *)

Lemma empty_view_nil (df : DataFrame) (currencies : list string)
      (period : string) :
  filtered_data df currencies period = [] ->
  dashboard df currencies period = Stopped no_data_warning.
Proof. intros Hnil. unfold dashboard. now rewrite Hnil. Qed.

Lemma filter_pair_length {A B : Type} (f : A -> bool) (g : B -> bool)
      (a : A) (l : list B) :
  List.length (filter (fun p => g (snd p) && f (fst p))
                      (map (fun y => (a, y)) l))
  = if f a then List.length (filter g l) else 0%nat.
Proof.
  induction l as [|b l IH]; cbn [map filter fst snd].
  - now destruct (f a).
  - destruct (f a) eqn:Hf.
    + rewrite andb_true_r. destruct (g b); cbn [List.length]; now rewrite IH.
    + rewrite andb_false_r. exact IH.
Qed.

Lemma filter_list_prod_length {A B : Type} (f : A -> bool) (g : B -> bool)
      (l : list A) (l' : list B) :
  List.length (filter (fun p => g (snd p) && f (fst p)) (list_prod l l'))
  = (List.length (filter f l) * List.length (filter g l'))%nat.
Proof.
  induction l as [|a l IH]; [reflexivity|].
  cbn [list_prod]. rewrite filter_app, length_app, IH, filter_pair_length.
  cbn [filter]. destruct (f a); cbn [List.length]; lia.
Qed.

Lemma last_row_of_pair (view : DataFrame) (c : string) (x : Q) (xs : list Q) :
  date_ordered view -> pair_rates view c = x :: xs ->
  exists r,
    In r view /\ Currency_Pair r = c
    /\ (forall r', In r' view -> Currency_Pair r' = c -> Date r' <= Date r)
    /\ iloc_last x xs = Exchange_Rate r.
Proof.
  intros Hord Hrates. unfold pair_rates in Hrates.
  destruct (filter (fun r => (Currency_Pair r =? c)%string) view)
    as [|r0 rs] eqn:Hrows; [discriminate|].
  assert (forall r, In r (r0 :: rs) <-> In r view /\ Currency_Pair r = c) as Hmem.
  { intros r. rewrite <- Hrows, filter_In, String.eqb_eq. tauto. }
  assert (StronglySorted by_date (r0 :: rs)) as Hsorted
    by (rewrite <- Hrows; now apply StronglySorted_filter).
  exists (last (r0 :: rs) r0).
  destruct (proj1 (Hmem _) (last_In r0 rs r0)) as [Hin Hpair].
  split; [assumption|]. split; [assumption|]. split.
  - intros r' Hin' Hpair'. apply (StronglySorted_last by_date r0 rs r0).
    + intros r. unfold by_date. lia.
    + assumption.
    + apply Hmem. auto.
  - cbn [map] in Hrates. injection Hrates as Hx Hxs. subst x xs.
    unfold iloc_last. destruct rs as [|r1 rs']; [reflexivity|].
    change (last (r0 :: r1 :: rs') r0) with (last (r1 :: rs') r0).
    apply last_map.
Qed.

Section GeneratedTable.

Context {G : Type} `{NumPy G}.

Lemma generate_dates_column dates items (g : G) :
  map Date (fst (generate dates items g))
  = map fst (list_prod dates (map fst items)).
Proof.
  unfold generate. rewrite <- (for_dates_keys 0 dates items g), map_map.
  reflexivity.
Qed.

Lemma generate_pairs_column dates items (g : G) :
  map Currency_Pair (fst (generate dates items g))
  = map snd (list_prod dates (map fst items)).
Proof.
  unfold generate. rewrite <- (for_dates_keys 0 dates items g), map_map.
  reflexivity.
Qed.

Lemma generate_view_length dates items (g : G) currencies start :
  List.length
    (filter (fun r => isin (Currency_Pair r) currencies
                      && date_ge (Date r) start)
            (fst (generate dates items g)))
  = (List.length (filter (fun d => date_ge d start) dates)
     * List.length (filter (fun c => isin c currencies) (map fst items)))%nat.
Proof.
  rewrite <- (filter_list_prod_length (fun d => date_ge d start)
                                      (fun c => isin c currencies)).
  unfold generate. rewrite <- (for_dates_keys 0 dates items g).
  rewrite (filter_map_swap
             (fun p => isin (snd p) currencies && date_ge (fst p) start) key).
  rewrite length_map. reflexivity.
Qed.

Lemma load_data_date_max (g : G) :
  date_max (fst (load_data g)) = Some (Calendar.toordinal 2024 1 1).
Proof.
  unfold date_max, load_data. rewrite generate_dates_column.
  vm_compute. reflexivity.
Qed.

Lemma load_data_date_min (g : G) :
  date_min (fst (load_data g)) = Some (Calendar.toordinal 2023 1 1).
Proof.
  unfold date_min, load_data. rewrite generate_dates_column.
  vm_compute. reflexivity.
Qed.

Lemma load_data_start_date (g : G) (period : string) :
  let start := start_date (fst (load_data g)) period in
  (start = Some (Calendar.toordinal 2023 12 2)
   \/ start = Some (Calendar.toordinal 2023 10 3)
   \/ start = Some (Calendar.toordinal 2023 7 5)
   \/ start = Some (Calendar.toordinal 2023 1 1)).
Proof.
  unfold start_date. rewrite load_data_date_max, load_data_date_min.
  destruct (period =? "Last 30 Days")%string; [now left|].
  destruct (period =? "Last 90 Days")%string; [now right; left|].
  destruct (period =? "Last 6 Months")%string; [now right; right; left|].
  now right; right; right.
Qed.

(** On the table of [load_data] the four periods start on 2023-12-02,
    2023-10-03, 2023-07-05 and 2023-01-01, and the view has 31, 91, 181 and
    366 rows for each configured pair that is selected: a window of [n]
    days back shows [n + 1] dates, both ends being included. *)
Theorem load_data_view_sizes (g : G) (currencies : list string) :
  let df := fst (load_data g) in
  let selected :=
    List.length (filter (fun c => isin c currencies) (map fst pairs)) in
  (start_date df "Last 30 Days" = Some (Calendar.toordinal 2023 12 2)
   /\ List.length (filtered_data df currencies "Last 30 Days")
      = (31 * selected)%nat)
  /\ (start_date df "Last 90 Days" = Some (Calendar.toordinal 2023 10 3)
      /\ List.length (filtered_data df currencies "Last 90 Days")
         = (91 * selected)%nat)
  /\ (start_date df "Last 6 Months" = Some (Calendar.toordinal 2023 7 5)
      /\ List.length (filtered_data df currencies "Last 6 Months")
         = (181 * selected)%nat)
  /\ (start_date df "Last Year" = Some (Calendar.toordinal 2023 1 1)
      /\ List.length (filtered_data df currencies "Last Year")
         = (366 * selected)%nat).
Proof.
  intros df selected.
  assert (forall period start n,
             start_date df period = Some start ->
             List.length (filter (fun d => date_ge d (Some start))
                            (Calendar.date_range (Calendar.toordinal 2023 1 1)
                                                 (Calendar.toordinal 2024 1 1)))
             = n ->
             List.length (filtered_data df currencies period)
             = (n * selected)%nat) as Hlen.
  { intros period start n Hstart Hn. unfold filtered_data. rewrite Hstart.
    subst df. unfold load_data. rewrite generate_view_length, Hn. reflexivity. }
  assert (forall period,
             start_date df period
             = (let today := Some (Calendar.toordinal 2024 1 1) in
                if (period =? "Last 30 Days")%string then minus_days today 30
                else if (period =? "Last 90 Days")%string then minus_days today 90
                else if (period =? "Last 6 Months")%string
                     then minus_days today 180
                     else Some (Calendar.toordinal 2023 1 1))) as Hstart.
  { intros period. unfold start_date. subst df.
    now rewrite load_data_date_max, load_data_date_min. }
  repeat split;
    try (rewrite Hstart; reflexivity);
    (eapply Hlen; [rewrite Hstart; reflexivity|vm_compute; reflexivity]).
Qed.

(** On the table of [load_data] the page stops with the warning exactly
    when none of the six configured pairs is selected, whatever the period
    and the random draws. *)
Theorem load_data_stops_iff (g : G) (currencies : list string)
        (period : string) :
  dashboard (fst (load_data g)) currencies period = Stopped no_data_warning
  <-> (forall c, In c currencies -> ~ In c (map fst pairs)).
Proof.
  set (df := fst (load_data g)).
  assert (filtered_data df currencies period = []
          <-> filter (fun c => isin c currencies) (map fst pairs) = []) as Hview.
  { assert (exists n, (0 < n)%nat
                      /\ List.length (filtered_data df currencies period)
                         = (n * List.length
                                  (filter (fun c => isin c currencies)
                                          (map fst pairs)))%nat)
      as (n & Hn & Hlen).
    { unfold filtered_data. subst df. unfold load_data.
      rewrite generate_view_length.
      destruct (load_data_start_date g period) as [Hs|[Hs|[Hs|Hs]]];
        unfold load_data in Hs; rewrite Hs; eexists;
        (split; [|reflexivity]); vm_compute; lia. }
    split; intros Hnil; apply length_zero_iff_nil.
    - rewrite Hnil in Hlen. cbn [List.length] in Hlen. nia.
    - rewrite Hlen, Hnil. cbn [List.length]. lia. }
  split.
  - intros Hstop c Hsel Hcfg.
    assert (filtered_data df currencies period = []) as Hnil.
    { unfold dashboard in Hstop. fold df in Hstop.
      destruct (filtered_data df currencies period); [reflexivity|discriminate]. }
    apply Hview in Hnil.
    pose proof (proj1 (filter_none _ _) Hnil c Hcfg) as Hfalse. cbn beta in Hfalse.
    apply isin_In in Hsel. congruence.
  - intros Hnone. apply empty_view_nil. fold df. apply Hview.
    apply filter_none. intros c Hcfg.
    destruct (isin c currencies) eqn:Hb; [|reflexivity].
    apply isin_In in Hb. exfalso. exact (Hnone c Hb Hcfg).
Qed.

Lemma generate_covers (start stop : Z) (items : list (string * PairConfig))
      (g : G) (d : Z) (c : string) :
  start <= d <= stop -> In c (map fst items) ->
  exists r, In r (fst (generate (Calendar.date_range start stop) items g))
            /\ Date r = d /\ Currency_Pair r = c.
Proof.
  intros Hd Hc.
  assert (In (d, c) (map key (fst (generate (Calendar.date_range start stop)
                                            items g)))) as Hin.
  { unfold generate. rewrite for_dates_keys. apply in_prod; [|assumption].
    unfold Calendar.date_range. apply in_map_iff.
    exists (Z.to_nat (d - start)). split; [lia|]. apply in_seq. lia. }
  apply in_map_iff in Hin as (r & Hr & Hin). exists r. inversion Hr. auto.
Qed.

(** The rows of the generated table come day by day, and within a day
    in the order of the configured pairs; so every day of the range has a row
    for every pair, and the table is in date order. *)
Theorem generate_row_order (start stop : Z)
        (items : list (string * PairConfig)) (g : G) :
  let dates := Calendar.date_range start stop in
  let df := fst (generate dates items g) in
  map key df = list_prod dates (map fst items)
  /\ (forall d c, start <= d <= stop -> In c (map fst items) ->
                  exists r, In r df /\ Date r = d /\ Currency_Pair r = c)
  /\ date_ordered df.
Proof.
  intros dates df.
  assert (map key df = list_prod dates (map fst items)) as Hkeys
    by apply for_dates_keys.
  split; [exact Hkeys|]. split.
  - intros d c Hd Hc. now apply generate_covers.
  - apply generate_date_ordered, date_range_sorted.
Qed.

(** The options of the multiselect, on the table of [load_data], are the
    six configured pairs in their order, and the three pairs selected by
    default are among them. *)
Theorem load_data_currency_options (g : G) :
  currency_options (fst (load_data g)) = map fst pairs
  /\ (forall c, In c default_currencies ->
                In c (currency_options (fst (load_data g)))).
Proof.
  assert (currency_options (fst (load_data g)) = map fst pairs) as Hopt.
  { unfold currency_options, load_data. rewrite generate_pairs_column.
    rewrite list_prod_as_flat_map, flat_map_concat_map, concat_map, map_map.
    apply unique_repeated.
    - apply pairs_names_NoDup.
    - discriminate.
    - apply Forall_forall. intros names Hin.
      apply in_map_iff in Hin as (d & <- & _).
      rewrite map_map. cbn [snd]. now rewrite map_id. }
  split; [exact Hopt|]. rewrite Hopt. cbn.
  intros c [<-|[<-|[<-|[]]]]; auto 10.
Qed.

(** The "Total Volume" metric, in millions, of a view of a generated table
    is at least the number of rows of the view and, when the view has rows,
    less than eight times that number. *)
Theorem total_volume_bounds (dates : list Z)
        (items : list (string * PairConfig)) (g : G)
        (currencies : list string) (period : string) :
  let view := filtered_data (fst (generate dates items g)) currencies period in
  let rows := inject_Z (Z.of_nat (List.length view)) in
  let total := metric_total_volume (key_metrics view currencies) in
  (rows <= total)%Q /\ (view <> [] -> (total < 8 * rows)%Q).
Proof.
  intros view rows total.
  assert (Forall (fun r => 1000000 <= Volume r < 8000000) view) as Hall.
  { apply Forall_forall. intros r Hr. apply filtered_data_In in Hr as [Hr _].
    pose proof (for_dates_rows 0 dates items g) as Hrows.
    rewrite Forall_forall in Hrows.
    destruct (Hrows r Hr) as (_ & _ & _ & Hv & _). exact Hv. }
  assert (1000000 * Z.of_nat (List.length view)
          <= fold_right Z.add 0%Z (map Volume view)
          <= 7999999 * Z.of_nat (List.length view)) as Hsum.
  { clear -Hall. induction Hall as [|r view Hr _ IH]; [cbn; lia|].
    cbn [map fold_right List.length]. lia. }
  subst total rows. cbn [key_metrics metric_total_volume].
  set (sum := fold_right Z.add 0%Z (map Volume view)) in *.
  set (n := Z.of_nat (List.length view)) in *.
  split.
  - apply Qle_shift_div_l; [reflexivity|].
    change 1000000%Q with (inject_Z 1000000).
    rewrite <- inject_Z_mult, <- Zle_Qle. lia.
  - intros Hne. apply Qlt_shift_div_r; [reflexivity|].
    assert (0 < n) as Hn.
    { subst n. destruct view; [congruence|]. cbn [List.length]. lia. }
    change 8%Q with (inject_Z 8). change 1000000%Q with (inject_Z 1000000).
    rewrite <- !inject_Z_mult, <- Zlt_Qlt. lia.
Qed.

(** On the table of [load_data], whatever the period, the current rate of
    a row of the statistics table is the rate of the pair's row of the last
    day, 2024-01-01. *)
Theorem current_rate_is_last_day (g : G) (currencies : list string)
        (period : string) (row : StatRow) :
  let df := fst (load_data g) in
  In row (stats_data (filtered_data df currencies period) currencies) ->
  exists r,
    In r df
    /\ Date r = Calendar.toordinal 2024 1 1
    /\ Currency_Pair r = Stat_Currency_Pair row
    /\ Current_Rate row = Exchange_Rate r.
Proof.
  intros df Hrow. set (view := filtered_data df currencies period) in *.
  destruct (stats_data_row _ _ _ Hrow) as (c & x & xs & Hsel & Hrates & ->).
  cbn [Stat_Currency_Pair Current_Rate].
  assert (date_ordered view) as Hord.
  { unfold view, filtered_data. apply StronglySorted_filter.
    apply load_data_date_ordered. }
  destruct (last_row_of_pair view c x xs Hord Hrates)
    as (r & Hr & Hpair & Hlatest & Hcur).
  exists r. pose proof Hr as Hr'.
  apply filtered_data_In in Hr' as (Hdf & _ & _).
  split; [assumption|]. split; [|split; assumption].
  assert (Date r <= Calendar.toordinal 2024 1 1) as Hle.
  { assert (df <> []) as Hne by (intros Heq; rewrite Heq in Hdf; exact Hdf).
    destruct (date_max_spec df Hne) as (today & Hmax & _ & Htoday).
    unfold df in Hmax. rewrite load_data_date_max in Hmax.
    injection Hmax as <-. auto. }
  assert (In c (map fst pairs)) as Hcfg.
  { pose proof (generate_pairs_column
                  (Calendar.date_range (Calendar.toordinal 2023 1 1)
                                       (Calendar.toordinal 2024 1 1))
                  pairs g) as Hcol.
    assert (In c (map Currency_Pair df)) as Hin
      by (rewrite <- Hpair; now apply in_map).
    unfold df, load_data in Hin. rewrite Hcol in Hin.
    apply in_map_iff in Hin as ([d n] & <- & Hin).
    now apply in_prod_iff in Hin. }
  destruct (generate_covers (Calendar.toordinal 2023 1 1)
                            (Calendar.toordinal 2024 1 1) pairs g
                            (Calendar.toordinal 2024 1 1) c)
    as (r' & Hr'df & Hr'date & Hr'pair); [vm_compute; split; discriminate
                                         |assumption|].
  assert (In r' view) as Hr'view.
  { apply filtered_data_In. split; [exact Hr'df|].
    split; [now rewrite Hr'pair|]. rewrite Hr'date.
    destruct (load_data_start_date g period) as [Hs|[Hs|[Hs|Hs]]];
      unfold df; rewrite Hs; reflexivity. }
  specialize (Hlatest r' Hr'view Hr'pair). rewrite Hr'date in Hlatest. lia.
Qed.

End GeneratedTable.

(* ================================================================== *)
(** * The bar chart, the basket and the average *)

Lemma insert_pair_In (c x : string) (cs : list string) :
  In x (insert_pair c cs) <-> x = c \/ In x cs.
Proof.
  induction cs as [|y cs IH]; cbn [insert_pair].
  - cbn. intuition.
  - destruct (String_as_OT.compare_spec c y) as [Heq|Hlt|Hgt].
    + unfold String_as_OT.eq in Heq. subst. cbn. intuition congruence.
    + cbn. intuition congruence.
    + cbn [In]. rewrite IH. intuition congruence.
Qed.

Lemma insert_pair_sorted (c : string) (cs : list string) :
  StronglySorted String_as_OT.lt cs ->
  StronglySorted String_as_OT.lt (insert_pair c cs).
Proof.
  induction 1 as [|y cs Hs IH Hall]; cbn [insert_pair].
  - repeat constructor.
  - destruct (String_as_OT.compare_spec c y) as [Heq|Hlt|Hgt].
    + now constructor.
    + constructor; [now constructor|]. constructor; [assumption|].
      eapply Forall_impl; [|exact Hall]. intros z Hz.
      eapply String_as_OT.lt_strorder; eassumption.
    + constructor; [assumption|].
      apply Forall_forall. intros z Hz. apply insert_pair_In in Hz as [->|Hz].
      * assumption.
      * rewrite Forall_forall in Hall. auto.
Qed.

Lemma group_pairs_In (c : string) (names : list string) :
  In c (group_pairs names) <-> In c names.
Proof.
  induction names as [|x names IH]; cbn; [tauto|].
  rewrite insert_pair_In, IH. intuition.
Qed.

Lemma group_pairs_sorted (names : list string) :
  StronglySorted String_as_OT.lt (group_pairs names).
Proof.
  induction names as [|x names IH]; cbn; [constructor|].
  now apply insert_pair_sorted.
Qed.

Lemma min_max_stats_In (view : DataFrame) (row : MinMaxRow) :
  In row (min_max_stats view)
  <-> exists x xs,
        pair_rates view (MinMax_Currency_Pair row) = x :: xs
        /\ row = {| MinMax_Currency_Pair := MinMax_Currency_Pair row;
                    MinMax_min := series_min x xs;
                    MinMax_max := series_max x xs |}.
Proof.
  unfold min_max_stats. rewrite in_flat_map. split.
  - intros (c & _ & Hin). destruct (pair_rates view c) as [|x xs] eqn:Hrates;
      [destruct Hin|].
    destruct Hin as [<-|[]]. cbn. exists x, xs. auto.
  - intros (x & xs & Hrates & Heq). exists (MinMax_Currency_Pair row). split.
    + apply group_pairs_In.
      destruct (in_dec String.string_dec (MinMax_Currency_Pair row)
                       (map Currency_Pair view)) as [Hin|Hnot]; [assumption|].
      exfalso. assert (pair_rates view (MinMax_Currency_Pair row) = []) as Hnil.
      { apply pair_rates_nil. intros r Hr Hpair. apply Hnot.
        rewrite <- Hpair. now apply in_map. }
      congruence.
    + rewrite Hrates. left. now symmetry.
Qed.

(** The frame behind the bar chart has one row for each pair of the view,
    the pairs in ascending lexical order; the minimum and the maximum of a
    row are rates of that pair in the view and enclose all of them. *)
Theorem min_max_stats_rows (view : DataFrame) :
  StronglySorted String_as_OT.lt
                 (map MinMax_Currency_Pair (min_max_stats view))
  /\ (forall c, In c (map MinMax_Currency_Pair (min_max_stats view))
                <-> In c (map Currency_Pair view))
  /\ (forall row, In row (min_max_stats view) ->
        let rates := pair_rates view (MinMax_Currency_Pair row) in
        In (MinMax_min row) rates
        /\ In (MinMax_max row) rates
        /\ Forall (fun y => (MinMax_min row <= y)%Q
                            /\ (y <= MinMax_max row)%Q) rates).
Proof.
  assert (map MinMax_Currency_Pair (min_max_stats view)
          = group_pairs (map Currency_Pair view)) as Hkeys.
  { unfold min_max_stats.
    assert (forall c, In c (group_pairs (map Currency_Pair view)) ->
                      pair_rates view c <> []) as Hne.
    { intros c Hc Hnil. apply group_pairs_In, in_map_iff in Hc as (r & Hr & Hin).
      exact (proj1 (pair_rates_nil view c) Hnil r Hin Hr). }
    induction (group_pairs (map Currency_Pair view)) as [|c cs IH];
      [reflexivity|].
    cbn [flat_map]. specialize (Hne c (or_introl eq_refl)) as Hc.
    destruct (pair_rates view c) as [|x xs]; [congruence|].
    cbn. f_equal. apply IH. intros c' Hc'. apply Hne. now right. }
  split; [rewrite Hkeys; apply group_pairs_sorted|].
  split; [intros c; rewrite Hkeys; apply group_pairs_In|].
  intros row Hrow rates. subst rates.
  apply min_max_stats_In in Hrow as (x & xs & Hrates & ->).
  cbn [MinMax_Currency_Pair MinMax_min MinMax_max]. rewrite Hrates.
  split; [apply series_min_spec|]. split; [apply series_max_spec|].
  apply series_min_max_bounds.
Qed.

Lemma stats_data_complete (view : DataFrame) (currencies : list string)
      (c : string) (x : Q) (xs : list Q) :
  In c currencies -> pair_rates view c = x :: xs ->
  exists row,
    In row (stats_data view currencies)
    /\ Stat_Currency_Pair row = c
    /\ Lowest_Rate row = series_min x xs
    /\ Peak_Rate row = series_max x xs.
Proof.
  intros Hsel Hrates. induction currencies as [|c' rest IH]; [destruct Hsel|].
  cbn [stats_data]. destruct (String.string_dec c' c) as [->|Hne].
  - rewrite Hrates. eexists. split; [left; reflexivity|]. cbn. auto.
  - destruct Hsel as [Heq|Hsel]; [congruence|].
    destruct (IH Hsel) as (row & Hin & Hrest). exists row. split; [|exact Hrest].
    destruct (pair_rates view c'); [assumption|now right].
Qed.

(** The bar chart and the statistics table show the same pairs with the
    same two numbers: each row of the table has a bar row of its pair with
    the table's lowest and peak rate, and each bar row has such a row in the
    table. *)
Theorem bar_chart_matches_table (df : DataFrame) (currencies : list string)
        (period : string) :
  let view := filtered_data df currencies period in
  (forall row, In row (stats_data view currencies) ->
     In {| MinMax_Currency_Pair := Stat_Currency_Pair row;
           MinMax_min := Lowest_Rate row;
           MinMax_max := Peak_Rate row |} (min_max_stats view))
  /\ (forall bar, In bar (min_max_stats view) ->
        exists row, In row (stats_data view currencies)
                    /\ Stat_Currency_Pair row = MinMax_Currency_Pair bar
                    /\ Lowest_Rate row = MinMax_min bar
                    /\ Peak_Rate row = MinMax_max bar).
Proof.
  intros view. split.
  - intros row Hrow.
    destruct (stats_data_row _ _ _ Hrow) as (c & x & xs & _ & Hrates & ->).
    cbn [Stat_Currency_Pair Lowest_Rate Peak_Rate].
    apply min_max_stats_In. exists x, xs. cbn. auto.
  - intros bar Hbar. apply min_max_stats_In in Hbar as (x & xs & Hrates & Hbar).
    rewrite Hbar. cbn [MinMax_Currency_Pair MinMax_min MinMax_max].
    apply stats_data_complete; [|assumption].
    assert (In (MinMax_Currency_Pair bar) (map Currency_Pair view)) as Hin.
    { destruct (in_dec String.string_dec (MinMax_Currency_Pair bar)
                       (map Currency_Pair view)) as [Hin|Hnot]; [assumption|].
      exfalso. assert (pair_rates view (MinMax_Currency_Pair bar) = []) as Hnil.
      { apply pair_rates_nil. intros r Hr Hpair. apply Hnot.
        rewrite <- Hpair. now apply in_map. }
      congruence. }
    apply in_map_iff in Hin as (r & <- & Hr).
    now apply filtered_data_In in Hr.
Qed.





(* ================================================================== *)
(** * The theorems at concrete tables *)

Lemma filtered_data_spec_witness :
  Sample.uneven <> []
  /\ In "Last 30 Days"%string period_options
  /\ exists today first start keep,
       (In today (map Date Sample.uneven)
        /\ forall r, In r Sample.uneven -> Date r <= today)
       /\ (In first (map Date Sample.uneven)
           /\ forall r, In r Sample.uneven -> first <= Date r)
       /\ ("Last 30 Days"%string = "Last 30 Days"%string -> start = today - 30)
       /\ ("Last 30 Days"%string = "Last 90 Days"%string -> start = today - 90)
       /\ ("Last 30 Days"%string = "Last 6 Months"%string -> start = today - 180)
       /\ ("Last 30 Days"%string = "Last Year"%string -> start = first)
       /\ (forall r, keep r = true
                     <-> In (Currency_Pair r) ["USD/EUR"%string]
                         /\ start <= Date r)
       /\ filtered_data Sample.uneven ["USD/EUR"%string] "Last 30 Days"
          = filter keep Sample.uneven.
Proof.
  split; [discriminate|]. split; [left; reflexivity|].
  apply (filtered_data_spec Sample.uneven ["USD/EUR"%string] "Last 30 Days").
  - discriminate.
  - left. reflexivity.
Defined.

Lemma empty_view_stops_witness :
  filtered_data Sample.uneven ["USD/JPY"%string] "Last 30 Days" = []
  /\ dashboard Sample.uneven ["USD/JPY"%string] "Last 30 Days"
     = Stopped no_data_warning
  /\ forall report,
       dashboard Sample.uneven ["USD/JPY"%string] "Last 30 Days"
       <> Rendered report.
Proof.
  split; [reflexivity|].
  apply (empty_view_stops Sample.uneven ["USD/JPY"%string] "Last 30 Days").
  reflexivity.
Defined.

Lemma uneven_date_ordered : date_ordered Sample.uneven.
Proof.
  unfold date_ordered, Sample.uneven.
  repeat (constructor; [|repeat constructor; unfold by_date; cbn; lia]).
  constructor.
Qed.

Lemma current_rate_is_latest_witness :
  date_ordered Sample.uneven
  /\ exists row,
       In row (stats_data
                 (filtered_data Sample.uneven ["USD/EUR"%string] "Last 30 Days")
                 ["USD/EUR"%string])
       /\ Current_Rate row = 0.84%Q
       /\ exists r,
            In r (filtered_data Sample.uneven ["USD/EUR"%string] "Last 30 Days")
            /\ Currency_Pair r = Stat_Currency_Pair row
            /\ (forall r',
                  In r' (filtered_data Sample.uneven ["USD/EUR"%string]
                                       "Last 30 Days") ->
                  Currency_Pair r' = Stat_Currency_Pair row ->
                  Date r' <= Date r)
            /\ Current_Rate row = Exchange_Rate r.
Proof.
  split; [exact uneven_date_ordered|].
  eexists. split; [left; reflexivity|]. split; [reflexivity|].
  apply (current_rate_is_latest Sample.uneven ["USD/EUR"%string]
                                "Last 30 Days").
  - exact uneven_date_ordered.
  - left. reflexivity.
Defined.

Lemma basket_is_daily_mean_witness :
  In Sample.new_year_2023 (map Date Sample.year_view)
  /\ List.length (filter (fun r => Date r =? Sample.new_year_2023)
                         Sample.year_view) = 2%nat
  /\ (exists v,
        In (Sample.new_year_2023, Some v) (basket_data Sample.year_view)
        /\ (v * 2 == 110.25 + 0.85)%Q
        /\ (v == 55.55)%Q)
  /\ (forall r r', In r Sample.eur_view -> In r' Sample.eur_view ->
                   Currency_Pair r = Currency_Pair r')
  /\ NoDup (map key Sample.eur_view)
  /\ exists v,
       In (Sample.new_year_2023 + 40, Some v) (basket_data Sample.eur_view)
       /\ (v == 0.84)%Q.
Proof.
  assert (forall r r', In r Sample.eur_view -> In r' Sample.eur_view ->
                       Currency_Pair r = Currency_Pair r') as Hone.
  { cbn. intros r r' [<-|[<-|[]]] [<-|[<-|[]]]; reflexivity. }
  assert (NoDup (map key Sample.eur_view)) as Hkeys.
  { cbn. repeat constructor; cbn; intuition discriminate. }
  assert (In Sample.new_year_2023 (map Date Sample.year_view)) as Hdate
    by (cbn; auto).
  destruct (basket_is_daily_mean Sample.year_view) as (_ & Hmean & _).
  destruct (basket_is_daily_mean Sample.eur_view) as (_ & _ & Hsingle).
  split; [exact Hdate|]. split; [reflexivity|]. split.
  - destruct (Hmean Sample.new_year_2023 Hdate) as (v & Hin & _ & _ & Hv).
    exists v. split; [exact Hin|].
    assert (v * 2 == 110.25 + 0.85)%Q as Hv2.
    { rewrite Hv. reflexivity. }
    split; [exact Hv2|]. lra.
  - split; [exact Hone|]. split; [exact Hkeys|].
    apply (Hsingle Hone Hkeys
                   (mkRow (Sample.new_year_2023 + 40) "USD/EUR" 0.84 5000000)).
    cbn. auto.
Defined.

Lemma absent_pair_is_skipped_witness :
  filtered_data Sample.uneven ["USD/EUR"; "USD/JPY"]%string "Last 30 Days" <> []
  /\ In "USD/JPY"%string ["USD/EUR"; "USD/JPY"]%string
  /\ (forall r,
        In r (filtered_data Sample.uneven ["USD/EUR"; "USD/JPY"]%string
                            "Last 30 Days") ->
        Currency_Pair r <> "USD/JPY"%string)
  /\ exists report,
       dashboard Sample.uneven ["USD/EUR"; "USD/JPY"]%string "Last 30 Days"
       = Rendered report
       /\ ~ In "USD/JPY"%string (map Stat_Currency_Pair (report_stats report))
       /\ ~ In "USD/JPY"%string (report_low report)
       /\ ~ In "USD/JPY"%string (report_med report)
       /\ ~ In "USD/JPY"%string (report_high report).
Proof.
  assert (forall r,
             In r (filtered_data Sample.uneven ["USD/EUR"; "USD/JPY"]%string
                                 "Last 30 Days") ->
             Currency_Pair r <> "USD/JPY"%string) as Hnone.
  { cbn. intros r [<-|[<-|[]]]; discriminate. }
  split; [discriminate|]. split; [right; left; reflexivity|].
  split; [exact Hnone|].
  apply (absent_pair_is_skipped Sample.uneven ["USD/EUR"; "USD/JPY"]%string
                                "Last 30 Days" "USD/JPY").
  - discriminate.
  - right. left. reflexivity.
  - exact Hnone.
Defined.

Lemma risk_lists_partition_witness :
  In "USD/JPY"%string ["USD/JPY"%string]
  /\ series_std (pair_rates Sample.spread_five "USD/JPY") <> NaN
  /\ In "USD/JPY"%string (high_risk Sample.spread_five ["USD/JPY"%string])
  /\ ((In "USD/JPY"%string (low_risk Sample.spread_five ["USD/JPY"%string])
       /\ ~ In "USD/JPY"%string (med_risk Sample.spread_five ["USD/JPY"%string])
       /\ ~ In "USD/JPY"%string (high_risk Sample.spread_five ["USD/JPY"%string]))
      \/ (~ In "USD/JPY"%string (low_risk Sample.spread_five ["USD/JPY"%string])
          /\ In "USD/JPY"%string (med_risk Sample.spread_five ["USD/JPY"%string])
          /\ ~ In "USD/JPY"%string
                 (high_risk Sample.spread_five ["USD/JPY"%string]))
      \/ (~ In "USD/JPY"%string (low_risk Sample.spread_five ["USD/JPY"%string])
          /\ ~ In "USD/JPY"%string
                 (med_risk Sample.spread_five ["USD/JPY"%string])
          /\ In "USD/JPY"%string
               (high_risk Sample.spread_five ["USD/JPY"%string]))).
Proof.
  split; [left; reflexivity|]. split; [discriminate|].
  split; [left; reflexivity|].
  apply (risk_lists_partition Sample.spread_five ["USD/JPY"%string] "USD/JPY").
  - left. reflexivity.
  - discriminate.
Defined.

(* ================================================================== *)
(** * The further theorems at concrete tables *)


Lemma single_row_pair_witness :
  In "USD/JPY"%string Sample.both
  /\ pair_rates Sample.year_view "USD/JPY" = [110.25%Q]
  /\ (exists row,
        In row (stats_data Sample.year_view Sample.both)
        /\ Stat_Currency_Pair row = "USD/JPY"%string
        /\ Current_Rate row = 110.25%Q /\ Peak_Rate row = 110.25%Q
        /\ Lowest_Rate row = 110.25%Q
        /\ (Average_Rate row == 110.25)%Q
        /\ Stat_Volatility row = NaN
        /\ Risk_Level row = "🟢 Low"%string)
  /\ ~ In "USD/JPY"%string (low_risk Sample.year_view Sample.both)
  /\ ~ In "USD/JPY"%string (med_risk Sample.year_view Sample.both)
  /\ ~ In "USD/JPY"%string (high_risk Sample.year_view Sample.both).
Proof.
  split; [right; left; reflexivity|]. split; [reflexivity|].
  apply (single_row_pair Sample.year_view Sample.both "USD/JPY" 110.25%Q).
  - right. left. reflexivity.
  - reflexivity.
Defined.


Lemma risk_lists_within_table_witness :
  In "USD/JPY"%string (high_risk Sample.spread_five ["USD/JPY"%string])
  /\ (2 <= List.length (pair_rates Sample.spread_five "USD/JPY"))%nat
  /\ In "USD/JPY"%string
        (map Stat_Currency_Pair
             (stats_data Sample.spread_five ["USD/JPY"%string])).
Proof.
  split; [left; reflexivity|].
  apply (risk_lists_within_table Sample.spread_five ["USD/JPY"%string]).
  right. right. left. reflexivity.
Defined.

Lemma filtered_data_subselection_witness :
  (forall c, In c ["USD/EUR"%string] -> In c Sample.both)
  /\ filtered_data Sample.uneven ["USD/EUR"%string] "Last 30 Days"
     = filter (fun r => isin (Currency_Pair r) ["USD/EUR"%string])
              (filtered_data Sample.uneven Sample.both "Last 30 Days").
Proof.
  assert (forall c, In c ["USD/EUR"%string] -> In c Sample.both) as Hincl.
  { intros c [<-|[]]. left. reflexivity. }
  split; [exact Hincl|].
  apply (filtered_data_subselection Sample.uneven ["USD/EUR"%string]
                                    Sample.both "Last 30 Days" Hincl).
Defined.

Lemma windows_nest_witness :
  date_max Sample.uneven = Some (Sample.new_year_2023 + 40)
  /\ filtered_data Sample.uneven Sample.both "Last 30 Days"
     = filter (fun r => Sample.new_year_2023 + 40 - 30 <=? Date r)
              (filtered_data Sample.uneven Sample.both "Last 90 Days").
Proof.
  split; [reflexivity|].
  apply (windows_nest Sample.uneven Sample.both (Sample.new_year_2023 + 40)).
  reflexivity.
Defined.

Lemma uneven_keys_NoDup : NoDup (map key Sample.uneven).
Proof.
  cbn. repeat constructor; cbn; intuition discriminate.
Qed.

Lemma filtered_data_keeps_invariants_witness :
  date_ordered Sample.uneven
  /\ NoDup (map key Sample.uneven)
  /\ date_ordered (filtered_data Sample.uneven Sample.both "Last 30 Days")
  /\ NoDup (map key (filtered_data Sample.uneven Sample.both "Last 30 Days")).
Proof.
  split; [exact uneven_date_ordered|]. split; [exact uneven_keys_NoDup|].
  destruct (filtered_data_keeps_invariants Sample.uneven Sample.both
                                            "Last 30 Days") as [Hord Hkeys].
  split; [exact (Hord uneven_date_ordered)|exact (Hkeys uneven_keys_NoDup)].
Defined.

Lemma generate_row_order_witness :
  Sample.new_year_2023 <= Sample.new_year_2023 + 1 <= Sample.new_year_2023 + 2
  /\ In "USD/INR"%string (map fst pairs)
  /\ exists r, In r Sample.three_days
               /\ Date r = Sample.new_year_2023 + 1
               /\ Currency_Pair r = "USD/INR"%string.
Proof.
  split; [unfold Sample.new_year_2023; lia|].
  split; [cbn; auto 10|].
  apply (generate_row_order (H := Lcg.numpy) Sample.new_year_2023
                            (Sample.new_year_2023 + 2) pairs 42).
  - unfold Sample.new_year_2023. lia.
  - cbn. auto 10.
Defined.

Lemma load_data_currency_options_witness :
  In "USD/INR"%string default_currencies
  /\ In "USD/INR"%string
        (currency_options (fst (load_data (H := Lcg.numpy) 42))).
Proof.
  split; [right; right; left; reflexivity|].
  apply (load_data_currency_options (H := Lcg.numpy) 42).
  right. right. left. reflexivity.
Defined.

Lemma total_volume_bounds_witness :
  filtered_data Sample.three_days default_currencies "Last 30 Days" <> []
  /\ (metric_total_volume
        (key_metrics
           (filtered_data Sample.three_days default_currencies "Last 30 Days")
           default_currencies)
      < 8 * inject_Z (Z.of_nat
                        (List.length
                           (filtered_data Sample.three_days default_currencies
                                          "Last 30 Days"))))%Q.
Proof.
  assert (filtered_data Sample.three_days default_currencies "Last 30 Days"
          <> []) as Hne by (vm_compute; discriminate).
  split; [exact Hne|].
  apply (total_volume_bounds (H := Lcg.numpy)
           (Calendar.date_range Sample.new_year_2023
                                (Sample.new_year_2023 + 2))
           pairs 42 default_currencies "Last 30 Days").
  exact Hne.
Defined.

Lemma min_max_stats_rows_witness :
  exists row,
    In row (min_max_stats Sample.year_view)
    /\ MinMax_Currency_Pair row = "USD/EUR"%string
    /\ In (MinMax_min row)
          (pair_rates Sample.year_view (MinMax_Currency_Pair row))
    /\ In (MinMax_max row)
          (pair_rates Sample.year_view (MinMax_Currency_Pair row))
    /\ Forall (fun y => (MinMax_min row <= y)%Q /\ (y <= MinMax_max row)%Q)
              (pair_rates Sample.year_view (MinMax_Currency_Pair row)).
Proof.
  eexists. split; [left; reflexivity|]. split; [reflexivity|].
  apply (proj2 (proj2 (min_max_stats_rows Sample.year_view))).
  left. reflexivity.
Defined.

Lemma bar_chart_matches_table_witness :
  exists bar,
    In bar (min_max_stats Sample.year_view)
    /\ exists row,
         In row (stats_data Sample.year_view Sample.both)
         /\ Stat_Currency_Pair row = MinMax_Currency_Pair bar
         /\ Lowest_Rate row = MinMax_min bar
         /\ Peak_Rate row = MinMax_max bar.
Proof.
  eexists. split; [left; reflexivity|].
  apply (proj2 (bar_chart_matches_table Sample.uneven Sample.both "Last Year")).
  left. reflexivity.
Defined.



Lemma current_rate_is_last_day_witness :
  exists row,
    In row (stats_data
              (filtered_data (fst (load_data (H := Lcg.numpy) 42))
                             ["USD/EUR"%string] "Last 30 Days")
              ["USD/EUR"%string])
    /\ exists r,
         In r (fst (load_data (H := Lcg.numpy) 42))
         /\ Date r = Calendar.toordinal 2024 1 1
         /\ Currency_Pair r = Stat_Currency_Pair row
         /\ Current_Rate row = Exchange_Rate r.
Proof.
  set (view := filtered_data (fst (load_data (H := Lcg.numpy) 42))
                             ["USD/EUR"%string] "Last 30 Days").
  assert (exists row, In row (stats_data view ["USD/EUR"%string]))
    as (row & Hrow).
  { cbn [stats_data].
    destruct (pair_rates view "USD/EUR") as [|x xs] eqn:Hrates.
    - exfalso. vm_compute in Hrates. discriminate Hrates.
    - eexists. left. reflexivity. }
  exists row. split; [exact Hrow|].
  exact (current_rate_is_last_day (H := Lcg.numpy) 42 ["USD/EUR"%string]
                                  "Last 30 Days" row Hrow).
Defined.
